(** * vsenv: Visual Studio environment bootstrap, verified against its specification

    Shallow embedding of [vsenv.py].  The program talks to the operating
    system (environment block, file system, two subprocesses, [exec]) and to
    library code whose results it only passes on ([pathlib], [json],
    [uuid], [tempfile]); those are gathered in a [world] record of oracles
    and a [state] holding the file system and a trace of observable events.
    Python statements are written in a state-and-exception monad [M]. *)

From Stdlib Require Import ZArith NArith Ascii String List.
From stdpp Require Import gmap strings list fin_maps.

Open Scope string_scope.
Open Scope list_scope.
Set Warnings "-register-all".

(** ** Python [str] operations

    A [str] is modelled as a [string] whose characters are the code points
    below 256. *)

Module Str.

Definition lower_char (c : ascii) : ascii :=
  let n := N_of_ascii c in
  if ((65 <=? n) && (n <=? 90))%N
     || ((192 <=? n) && (n <=? 222) && negb (n =? 215))%N
  then ascii_of_N (n + 32) else c.

(** [str.lower()] *)
Fixpoint lower (s : string) : string :=
  match s with
  | EmptyString => EmptyString
  | String c r => String (lower_char c) (lower r)
  end.

Definition upper_char (c : ascii) : ascii :=
  let n := N_of_ascii c in
  if ((97 <=? n) && (n <=? 122))%N
     || ((224 <=? n) && (n <=? 254) && negb (n =? 247))%N
  then ascii_of_N (n - 32) else c.

(** [str.upper()], exact on strings without U+00B5, U+00DF and U+00FF
    (whose upper-case forms are not code points below 256); every key the
    program looks up is ASCII. *)
Fixpoint upper (s : string) : string :=
  match s with
  | EmptyString => EmptyString
  | String c r => String (upper_char c) (upper r)
  end.

(** The line boundaries of [str.splitlines()] among the code points below
    256: LF, VT, FF, CR, FS, GS, RS and NEL. *)
Definition is_linebreak (c : ascii) : bool :=
  let n := N_of_ascii c in
  ((n =? 10) || (n =? 11) || (n =? 12) || (n =? 13)
   || (n =? 28) || (n =? 29) || (n =? 30) || (n =? 133))%N.

Definition CR : ascii := "013"%char.
Definition LF : ascii := "010"%char.

(** [cur] holds the characters of the line being read, last one first. *)
Fixpoint splitlines_from (cur : string) (s : string) : list string :=
  match s with
  | EmptyString =>
      match cur with EmptyString => [] | _ => [String.rev cur] end
  | String c r =>
      if is_linebreak c then
        String.rev cur ::
          match r with
          | String c' r' =>
              if Ascii.eqb c CR && Ascii.eqb c' LF
              then splitlines_from EmptyString r'
              else splitlines_from EmptyString r
          | EmptyString => splitlines_from EmptyString r
          end
      else splitlines_from (String c cur) r
  end.

(** [str.splitlines()] *)
Definition splitlines (s : string) : list string :=
  splitlines_from EmptyString s.

(** The text before and after the first occurrence of [sep]. *)
Fixpoint cut (sep : ascii) (s : string) : option (string * string) :=
  match s with
  | EmptyString => None
  | String c r =>
      if Ascii.eqb c sep then Some (EmptyString, r)
      else match cut sep r with
           | Some (k, v) => Some (String c k, v)
           | None => None
           end
  end.

(** [s.split(sep, 1)] for a one-character separator. *)
Definition split1 (sep : ascii) (s : string) : list string :=
  match cut sep s with
  | Some (k, v) => [k; v]
  | None => [s]
  end.

(** [c in s] *)
Fixpoint contains (c : ascii) (s : string) : bool :=
  match s with
  | EmptyString => false
  | String c' r => Ascii.eqb c' c || contains c r
  end.

(** Truth value of a [str]: non-empty. *)
Definition truthy (s : string) : bool :=
  match s with EmptyString => false | _ => true end.

(** [s.replace(a, b)] for single characters. *)
Fixpoint replace_char (a b : ascii) (s : string) : string :=
  match s with
  | EmptyString => EmptyString
  | String c r =>
      String (if Ascii.eqb c a then b else c) (replace_char a b r)
  end.

End Str.

(** ** Exceptions, values and the outside world *)

(** The exception classes that can arise in the program.  [Error] is the
    program's own class ([class Error(Exception)]); the others belong to the
    interpreter and its library. *)
Inductive exn : Type :=
| Error (msg : string)
| KeyError (key : string)
| TypeError (msg : string)
| ValueError (msg : string)
| IndexError (msg : string)
| AttributeError (msg : string)
| OSError (msg : string)
| JSONDecodeError
| CalledProcessError (returncode : Z) (cmd : list string).

(** [isinstance(e, Error)] *)
Definition is_Error (e : exn) : bool :=
  match e with Error _ => true | _ => false end.

(** [isinstance(e, (OSError, AttributeError))] *)
Definition is_OSError_or_AttributeError (e : exn) : bool :=
  match e with OSError _ | AttributeError _ => true | _ => false end.

(** [isinstance(e, ValueError)]; [JSONDecodeError] derives from it. *)
Definition is_ValueError (e : exn) : bool :=
  match e with ValueError _ | JSONDecodeError => true | _ => false end.

(** What [json.loads] can return (numbers restricted to integers). *)
Inductive json : Type :=
| JNull
| JBool (b : bool)
| JInt (n : Z)
| JStr (s : string)
| JArr (items : list json)
| JObj (members : list (string * json)).

(** An argument handed to [shutil.which]: a [str], or a builtin function
    object such as [compile]. *)
Inductive pyobj : Type :=
| PyStr (s : string)
| PyBuiltin (name : string).

(** Outcome of the block that queries [kernel32.IsWow64Process2]. *)
Inductive wow64_result : Type :=
| Wow64Raises (e : exn)
| Wow64Returns (ok : bool) (native_arch : Z).

(** Outcome of starting a child process and waiting for it; a process that
    cannot be started is an [OSError]. *)
Inductive proc_result : Type :=
| ProcExited (returncode : Z) (stdout : string)
| ProcNotStarted (reason : string).

(** Observable actions, most recent first in the trace.  A child process is
    logged with its outcome once it has been waited for. *)
Inductive event : Type :=
| EvWhich (cmd : pyobj)
| EvRun (args : list string) (outcome : proc_result)
| EvTempfile (name : string)
| EvStderr (text : string)
| EvTraceback (e : exn)
| EvExec (file : string) (argv : list string) (env : gmap string string).

(** The file system ([path ↦ contents]) and the trace. *)
Record state : Type := mkState {
  fs : gmap string string;
  trace : list event
}.

(** Everything the program reads from its surroundings. *)
Record world : Type := mkWorld {
  sys_platform : string;
  sys_argv : list string;
  (** the table behind [os.environ]; on Windows its keys are upper-cased *)
  os_environ : gmap string string;
  IsWow64Process2 : wow64_result;
  (** [str(pathlib.Path(p))]: the path as [pathlib] writes it *)
  path_str : string → string;
  (** [str(pathlib.Path(base, rel))], which for a path [base] is also
      [str(base / rel)] *)
  path_join : string → string → string;
  (** [shutil.which] on a [str] *)
  which : string → option string;
  (** [json.loads]; [None] stands for [JSONDecodeError] *)
  json_loads : string → option json;
  (** [str(uuid.uuid4())] *)
  uuid4 : string;
  (** the name [tempfile.NamedTemporaryFile] picks *)
  mktemp : gmap string string → string;
  (** running a command: the file system it leaves and its outcome *)
  spawn : list string → gmap string string → gmap string string * proc_result;
  (** [os.execvpe]: [None] when the process image is replaced, otherwise
      the exception it raises ([OSError] when the file cannot be executed,
      [ValueError] for an environment it refuses, such as one with an empty
      variable name) *)
  execvpe : string → list string → gmap string string → option exn
}.

(** ** The monad of Python statements *)

Inductive result (A : Type) : Type :=
| Ret (a : A)
| Raise (e : exn)
| Replaced.
Arguments Ret {A} a.
Arguments Raise {A} e.
Arguments Replaced {A}.

Definition M (A : Type) : Type := state → state * result A.

Definition ret {A} (a : A) : M A := λ s, (s, Ret a).
Definition raise {A} (e : exn) : M A := λ s, (s, Raise e).
Definition bind {A B} (m : M A) (k : A → M B) : M B :=
  λ s, match m s with
       | (s', Ret a) => k a s'
       | (s', Raise e) => (s', Raise e)
       | (s', Replaced) => (s', Replaced)
       end.

#[global] Instance M_ret : MRet M := @ret.
#[global] Instance M_bind : MBind M := λ A B k m, bind m k.

(** [try: body / except <classes matched by handles>: handler] *)
Definition try_except {A} (body : M A) (handles : exn → bool)
    (handler : exn → M A) : M A :=
  λ s, match body s with
       | (s', Raise e) => if handles e then handler e s' else (s', Raise e)
       | r => r
       end.

(** [try: body / finally: cleanup].  An exception of the cleanup replaces
    the pending outcome. *)
Definition try_finally {A} (body : M A) (cleanup : M unit) : M A :=
  λ s, match body s with
       | (s', Replaced) => (s', Replaced)
       | (s', r) =>
           match cleanup s' with
           | (s'', Ret _) => (s'', r)
           | (s'', Raise e) => (s'', Raise e)
           | (s'', Replaced) => (s'', Replaced)
           end
       end.

Definition emit (ev : event) : M unit :=
  λ s, (mkState (fs s) (ev :: trace s), Ret ()).

Definition get_fs : M (gmap string string) := λ s, (s, Ret (fs s)).
Definition put_fs (f : gmap string string) : M unit :=
  λ s, (mkState f (trace s), Ret ()).

Definition nl : string := String "010"%char EmptyString.
Definition dquote : string := String "034"%char EmptyString.

(** Truth value of an optional [str] ([None] and [''] are false). *)
Definition opt_truthy (o : option string) : bool :=
  match o with Some s => Str.truthy s | None => false end.

(** [a or b] on such values. *)
Definition py_or (a b : option string) : option string :=
  if opt_truthy a then a else b.

(** Truth value of a decoded JSON document. *)
Definition json_truthy (j : json) : bool :=
  match j with
  | JNull => false
  | JBool b => b
  | JInt n => negb (n =? 0)%Z
  | JStr s => Str.truthy s
  | JArr items => match items with [] => false | _ => true end
  | JObj members => match members with [] => false | _ => true end
  end.

(** Lookup in the members of an object; a repeated name keeps its last
    value, as in the [dict] that [json.loads] builds. *)
Fixpoint obj_lookup (k : string) (members : list (string * json)) : option json :=
  match members with
  | [] => None
  | (k', v) :: rest =>
      match obj_lookup k rest with
      | Some v' => Some v'
      | None => if String.eqb k k' then Some v else None
      end
  end.

(** [j[0]] *)
Definition json_index0 (j : json) : M json :=
  match j with
  | JArr (x :: _) => ret x
  | JArr [] => raise (IndexError "list index out of range")
  | JStr (String c _) => ret (JStr (String c EmptyString))
  | JStr EmptyString => raise (IndexError "string index out of range")
  | JObj _ => raise (KeyError "0")
  | _ => raise (TypeError "object is not subscriptable")
  end.

(** [j[k]] for a [str] key *)
Definition json_getitem (j : json) (k : string) : M json :=
  match j with
  | JObj members =>
      match obj_lookup k members with
      | Some v => ret v
      | None => raise (KeyError k)
      end
  | JArr _ => raise (TypeError "list indices must be integers or slices, not str")
  | JStr _ => raise (TypeError "string indices must be integers")
  | _ => raise (TypeError "object is not subscriptable")
  end.

(** [p.exists()] *)
Definition path_exists (p : string) : M bool :=
  f ← get_fs; ret (bool_decide (is_Some (f !! p))).

(** [os.unlink(p)]: removes an existing file, [FileNotFoundError] (an
    [OSError]) otherwise. *)
Definition os_unlink (p : string) : M unit :=
  f ← get_fs;
  if bool_decide (is_Some (f !! p)) then put_fs (delete p f)
  else raise (OSError "No such file or directory").

(** [k, v = parts] *)
Definition unpack2 (parts : list string) : M (string * string) :=
  match parts with
  | [k; v] => ret (k, v)
  | [] | [_] => raise (ValueError "not enough values to unpack")
  | _ => raise (ValueError "too many values to unpack")
  end.

(** [str(exc)] *)
Definition exn_str (e : exn) : string :=
  match e with
  | Error msg | TypeError msg | ValueError msg | IndexError msg
  | AttributeError msg | OSError msg => msg
  | KeyError key => "'" +:+ key +:+ "'"
  | JSONDecodeError => "Expecting value"
  | CalledProcessError _ _ => "Command returned non-zero exit status"
  end.

(** [print(text, file=sys.stderr)] *)
Definition print_stderr (text : string) : M unit :=
  emit (EvStderr (text +:+ nl)).

(** [os.exit(status)]: the [os] module has [_exit] but no attribute [exit],
    so evaluating [os.exit] raises before anything is called. *)
Definition os_exit {A} (status : Z) : M A :=
  raise (AttributeError "module 'os' has no attribute 'exit'").

(** [xs[1]] *)
Definition index1 (xs : list string) : M string :=
  match xs !! 1%nat with
  | Some x => ret x
  | None => raise (IndexError "list index out of range")
  end.

(** ** The program *)

Section Program.

Variable w : world.

(** [os.environ] encodes a key before it looks it up: upper-case on
    Windows, unchanged elsewhere. *)
Definition encodekey (k : string) : string :=
  if String.eqb (sys_platform w) "win32" then Str.upper k else k.

(** [os.environ.get(k)] *)
Definition environ_get (k : string) : option string :=
  os_environ w !! encodekey k.

(** [os.environ[k]] *)
Definition environ_getitem (k : string) : M string :=
  match environ_get k with
  | Some v => ret v
  | None => raise (KeyError k)
  end.

(** [os.environ.copy()] *)
Definition environ_copy : gmap string string := os_environ w.

(** A path is held as its [str].  [normpath p] is [str(pathlib.Path(p))]. *)
Definition normpath (p : string) : string := path_str w p.

(** [str(pathlib.Path(base, rel))]; for a path [base], [str(base / rel)]. *)
Definition joinpath (base rel : string) : string := path_join w base rel.

(** [pathlib.Path(root, rel)] *)
Definition pathlib_Path2 (root : option string) (rel : string) : M string :=
  match root with
  | Some r => ret (joinpath r rel)
  | None => raise (TypeError "expected str, bytes or os.PathLike object, not NoneType")
  end.

(** [pathlib.Path(j)] *)
Definition pathlib_Path (j : json) : M string :=
  match j with
  | JStr s => ret (normpath s)
  | _ => raise (TypeError "expected str, bytes or os.PathLike object")
  end.

(** [shutil.which(cmd)]: its first step takes the directory part of
    [cmd], which is a [TypeError] for anything but a path. *)
Definition shutil_which (cmd : pyobj) : M (option string) :=
  emit (EvWhich cmd) ;;
  match cmd with
  | PyStr s => ret (which w s)
  | PyBuiltin _ =>
      raise (TypeError "expected str, bytes or os.PathLike object, not builtin_function_or_method")
  end.

(** [subprocess.run(args, stdout=subprocess.PIPE, check=True).stdout] *)
Definition subprocess_run (args : list string) : M string :=
  f ← get_fs;
  put_fs (spawn w args f).1 ;;
  emit (EvRun args (spawn w args f).2) ;;
  match (spawn w args f).2 with
  | ProcNotStarted reason => raise (OSError reason)
  | ProcExited returncode stdout =>
      if (returncode =? 0)%Z then ret stdout
      else raise (CalledProcessError returncode args)
  end.

(** [json.loads(out)] *)
Definition json_loads_ (out : string) : M json :=
  match json_loads w out with
  | Some j => ret j
  | None => raise JSONDecodeError
  end.

(** [tempfile.NamedTemporaryFile('w', suffix='.bat', ..., delete=False)]
    followed by [write], [flush] and [close]; returns [tmp.name]. *)
Definition write_tempfile (content : string) : M string :=
  f ← get_fs;
  let name := mktemp w f in
  put_fs (<[name := content]> f) ;;
  emit (EvTempfile name) ;;
  ret name.

(** [os.execvpe(file, argv, env)] *)
Definition os_execvpe {A} (file : string) (argv : list string)
    (env : gmap string string) : M A :=
  emit (EvExec file argv env) ;;
  match execvpe w file argv env with
  | None => λ s, (s, Replaced)
  | Some e => raise e
  end.

(** *** [_windows_detect_native_arch] *)

(** Image file machine constants, lines 30-37. *)
Definition machine_arch (native_arch : Z) : option string :=
  if (native_arch =? 0x8664)%Z then Some "amd64"
  else if (native_arch =? 0x014C)%Z then Some "x86"
  else if (native_arch =? 0xAA64)%Z then Some "arm64"
  else if (native_arch =? 0x01C4)%Z then Some "arm"
  else None.

(** The [try] block of lines 21-39: [Some a] when it returns [a], [None]
    when control falls through to line 44. *)
Definition query_native_arch : M (option string) :=
  try_except
    match IsWow64Process2 w with
    | Wow64Raises e => raise e
    | Wow64Returns ok native_arch =>
        if ok then ret (machine_arch native_arch) else ret None
    end
    is_OSError_or_AttributeError
    (λ _, ret None).

Definition is_KeyError (e : exn) : bool :=
  match e with KeyError _ => true | _ => false end.

Definition _windows_detect_native_arch : M (option string) :=
  if negb (String.eqb (sys_platform w) "win32") then ret None
  else
    r ← query_native_arch;
    match r with
    | Some a => ret (Some a)
    | None =>
        let arch := Str.lower (default "" (environ_get "PROCESSOR_ARCHITEW6432")) in
        if negb (Str.truthy arch) then
          arch ← try_except
                   (v ← environ_getitem "PROCESSOR_ARCHITECTURE";
                    ret (Str.lower v))
                   is_KeyError
                   (λ _, raise (Error "Unable to detect native OS architecture"));
          ret (Some arch)
        else ret (Some arch)
    end.

(** *** [_setup_env] *)

(** The loop of lines 63-65; [true] when its [return env] is taken.  The
    call passes the builtin [compile], not the loop variable. *)
Fixpoint compiler_on_path (names : list string) : M bool :=
  match names with
  | [] => ret false
  | compiler :: rest =>
      p ← shutil_which (PyBuiltin "compile");
      if opt_truthy p then ret true else compiler_on_path rest
  end.

(** The command of lines 75-85. *)
Definition vswhere_cmd (vswhere : string) : list string :=
  [ vswhere; "-latest"; "-prerelease"; "-requiresAny";
    "-requires"; "Microsoft.VisualStudio.Component.VC.Tools.x86.x64";
    "-requires"; "Microsoft.VisualStudio.Workload.WDExpress";
    "-products"; "*"; "-utf8"; "-format"; "json" ].

(** Lines 69-92: the installation path reported by the locator. *)
Definition find_installation : M string :=
  let root := py_or (environ_get "ProgramFiles(x86)") (environ_get "ProgramFiles") in
  vswhere ← pathlib_Path2 root "Microsoft Visual Studio/Installer/vswhere.exe";
  ex ← path_exists vswhere;
  if negb ex then raise (Error ("Could not find " +:+ vswhere))
  else
    out ← subprocess_run (vswhere_cmd vswhere);
    info ← json_loads_ out;
    if negb (json_truthy info) then raise (Error "Could not parse vswhere.exe output")
    else
      first ← json_index0 info;
      p ← json_getitem first "installationPath";
      pathlib_Path p.

(** Lines 94-105: the setup script for the architecture. *)
Definition select_vcvars (arch : option string) (installation_path : string) : M string :=
  vcvars ←
    (if bool_decide (arch = Some "arm64") then
       let vcvars := joinpath installation_path "VC/Auxiliary/Build/vcvarsarm64.bat" in
       ex ← path_exists vcvars;
       if negb ex
       then ret (joinpath installation_path "VC/Auxiliary/Build/vcvarsx86_arm64.bat")
       else ret vcvars
     else
       let vcvars := joinpath installation_path "VC/Auxiliary/Build/vcvars64.bat" in
       ex ← path_exists vcvars;
       if negb ex
       then ret (joinpath installation_path "VC/Auxiliary/Build/vcvarsx86_amd64.bat")
       else ret vcvars);
  ex ← path_exists vcvars;
  if negb ex then raise (Error "Could not find vcvars.bat")
  else ret vcvars.

(** Lines 108-113, after [textwrap.dedent]. *)
Definition batch_script (vcvars separator : string) : string :=
  nl +:+ "@ECHO OFF" +:+ nl
     +:+ "call " +:+ dquote +:+ vcvars +:+ dquote +:+ nl
     +:+ "ECHO " +:+ separator +:+ nl
     +:+ "SET" +:+ nl.

(** Lines 115-123: write the script, run it, delete it. *)
Definition run_script (vcvars separator : string) : M string :=
  tmp ← write_tempfile (batch_script vcvars separator);
  try_finally (subprocess_run [tmp]) (os_unlink tmp).

(** Lines 126-128: what the iterator still holds after the first loop. *)
Fixpoint skip_separator (separator : string) (lines : list string) : list string :=
  match lines with
  | [] => []
  | line :: rest =>
      if String.eqb line separator then rest
      else skip_separator separator rest
  end.

(** Lines 130-138: the body of the second loop. *)
Definition merge_line (env : gmap string string) (line : string) : M (gmap string string) :=
  if negb (Str.truthy line) then ret env
  else
    kv ← try_except
           (kv ← unpack2 (Str.split1 "="%char line); ret (Some kv))
           is_ValueError
           (λ _, ret None);
    match kv with
    | Some (k, v) => ret (<[k := v]> env)
    | None => ret env
    end.

(** Lines 129-138: the second loop. *)
Fixpoint merge_lines (env : gmap string string) (lines : list string) : M (gmap string string) :=
  match lines with
  | [] => ret env
  | line :: rest => env ← merge_line env line; merge_lines env rest
  end.

(** Lines 125-140. *)
Definition scan_output (separator out : string) (env : gmap string string) : M (gmap string string) :=
  let lines := Str.splitlines out in
  let lines := skip_separator separator lines in
  merge_lines env lines.

(** Line 67: [arch or _windows_detect_native_arch()]. *)
Definition target_arch (arch : option string) : M (option string) :=
  if opt_truthy arch then ret arch else _windows_detect_native_arch.

(** Lines 67-140: what runs once the early returns are passed. *)
Definition discover (arch : option string) (env : gmap string string) : M (gmap string string) :=
  arch ← target_arch arch;
  installation_path ← find_installation;
  vcvars ← select_vcvars arch installation_path;
  let separator := uuid4 w in
  out ← run_script vcvars separator;
  scan_output separator out env.

Definition _setup_env (arch : option string) (force : bool) : M (gmap string string) :=
  let env := environ_copy in
  if negb (String.eqb (sys_platform w) "win32") then ret env
  else if bool_decide (environ_get "OSTYPE" = Some "cygwin") then ret env
  else
    found ← (if negb force
             then compiler_on_path ["cc"; "gcc"; "clang"; "clang-cl"]
             else ret false);
    if (found : bool) then ret env
    else discover arch env.

(** *** [main] *)

Definition main : M unit :=
  env ← try_except (_setup_env None true) is_Error
          (λ exc, print_stderr ("error: " +:+ exn_str exc) ;; os_exit 1);
  file ← index1 (sys_argv w);
  os_execvpe file (drop 1 (sys_argv w)) env.

(** How the process ends. *)
Inductive termination : Type :=
| Exited (status : Z)
| ImageReplaced.

(** [if __name__ == '__main__': main()]: an exception that leaves [main]
    is reported as a traceback and the interpreter exits with status 1. *)
Definition run_program (s : state) : state * termination :=
  match main s with
  | (s', Ret _) => (s', Exited 0)
  | (s', Raise e) => (mkState (fs s') (EvTraceback e :: trace s'), Exited 1)
  | (s', Replaced) => (s', ImageReplaced)
  end.

End Program.

(** ** Vocabulary of the statements *)

(** The environment after one line of the second loop. *)
Definition merged_line (env : gmap string string) (line : string) : gmap string string :=
  match line with
  | EmptyString => env
  | _ => match Str.cut "="%char line with
         | Some (k, v) => <[k := v]> env
         | None => env
         end
  end.

(** [k=v] as a line of text. *)
Definition assignment (k v : string) : string := k +:+ String "="%char v.

(** A statement that leaves the state alone. *)
Definition stateless {A} (m : M A) : Prop := ∀ s, (m s).1 = s.

(** On plain Windows. *)
Definition plain_windows (w : world) : Prop :=
  sys_platform w = "win32" ∧ environ_get w "OSTYPE" ≠ Some "cygwin".

(** Every event [m] logs satisfies [P]. *)
Definition emits {A} (P : event → Prop) (m : M A) : Prop :=
  ∀ s s' r, m s = (s', r) → ∃ evs, trace s' = evs ++ trace s ∧ Forall P evs.

Definition not_tempfile (ev : event) : Prop := ∀ n, ev ≠ EvTempfile n.

(** Every temporary file logged between [s] and [s'] is gone in [s']. *)
Definition tidy (s s' : state) : Prop :=
  ∀ evs name, trace s' = evs ++ trace s → EvTempfile name ∈ evs → fs s' !! name = None.

Definition not_exec (ev : event) : Prop := ∀ file argv env, ev ≠ EvExec file argv env.
Definition not_which (ev : event) : Prop := ∀ cmd, ev ≠ EvWhich cmd.

Definition any_event (ev : event) : Prop := True.

(** The same world with another answer of [shutil.which]. *)
Definition with_which (f : string → option string) (w : world) : world :=
  {| sys_platform := sys_platform w;
     sys_argv := sys_argv w;
     os_environ := os_environ w;
     IsWow64Process2 := IsWow64Process2 w;
     path_str := path_str w;
     path_join := path_join w;
     which := f;
     json_loads := json_loads w;
     uuid4 := uuid4 w;
     mktemp := mktemp w;
     spawn := spawn w;
     execvpe := execvpe w |}.

(** ** Windows paths of the concrete machines

    What [pathlib] does with a Windows path that is relative or starts with
    a drive letter: [/] is read as [\], the drive and the root are split
    off, empty components and [.] are dropped, and the rest is joined with
    single separators.  (UNC and extended-length prefixes are left out.)
    The program itself takes its [pathlib] from the [world]; this is the one
    of the machines below. *)

Module WinPath.

Definition sep : ascii := "\"%char.

(** [s.split(c)]; [cur] holds the piece being read, last character first. *)
Fixpoint split_from (c : ascii) (cur : string) (s : string) : list string :=
  match s with
  | EmptyString => [String.rev cur]
  | String a r =>
      if Ascii.eqb a c then String.rev cur :: split_from c EmptyString r
      else split_from c (String a cur) r
  end.

Definition split (c : ascii) (s : string) : list string :=
  split_from c EmptyString s.

(** [s.lstrip(c)] *)
Fixpoint lstrip (c : ascii) (s : string) : string :=
  match s with
  | EmptyString => EmptyString
  | String a r => if Ascii.eqb a c then lstrip c r else s
  end.

Definition is_drive_letter (a : ascii) : bool :=
  let n := N_of_ascii a in
  (((65 <=? n) && (n <=? 90)) || ((97 <=? n) && (n <=? 122)))%N.

(** A parsed path: drive ([C:] or empty), root ([\] or empty), components. *)
Record parsed : Type := mkParsed {
  drive : string;
  root : string;
  parts : list string
}.

Definition starts_with_sep (s : string) : bool :=
  match s with String a _ => Ascii.eqb a sep | EmptyString => false end.

Definition components (rel : string) : list string :=
  filter (λ x, x ≠ "" ∧ x ≠ ".") (split sep rel).

(** The drive, the root and the components of one string. *)
Definition parse (p : string) : parsed :=
  let p := Str.replace_char "/"%char sep p in
  let '(drv, rest) :=
    match p with
    | String a (String b r) =>
        if is_drive_letter a && Ascii.eqb b ":"%char
        then (String a (String b EmptyString), r)
        else (EmptyString, p)
    | _ => (EmptyString, p)
    end in
  if starts_with_sep rest
  then mkParsed drv (String sep EmptyString) (components (lstrip sep rest))
  else mkParsed drv EmptyString (components rest).

Fixpoint join_with (c : ascii) (xs : list string) : string :=
  match xs with
  | [] => EmptyString
  | [x] => x
  | x :: rest => x +:+ String c (join_with c rest)
  end.

(** [str] of a parsed path; the empty path is written [.]. *)
Definition to_str (q : parsed) : string :=
  match drive q +:+ root q +:+ join_with sep (parts q) with
  | EmptyString => "."
  | text => text
  end.

(** The path of two strings.  The program only joins a relative second
    string (no drive, no root), whose components are appended; for
    completeness, a second one with a drive stands alone and one with a
    root keeps only the drive of the first, as in Python 3.11. *)
Definition join (a b : parsed) : parsed :=
  match drive b, root b with
  | EmptyString, EmptyString => mkParsed (drive a) (root a) (parts a ++ parts b)
  | EmptyString, _ => mkParsed (drive a) (root b) (parts b)
  | _, _ => b
  end.

Definition path_str (p : string) : string := to_str (parse p).

Definition path_join (base rel : string) : string :=
  to_str (join (parse base) (parse rel)).

End WinPath.

(** ** A concrete machine

    A Windows host with one Visual Studio installation, used to run the
    program on explicit inputs. *)

Module Demo.

Definition program_files : string := "C:\Program Files (x86)".

Definition vswhere : string :=
  "C:\Program Files (x86)\Microsoft Visual Studio\Installer\vswhere.exe".

Definition vcvars64 : string := "C:\VS\VC\Auxiliary\Build\vcvars64.bat".
Definition vcvarsarm64 : string := "C:\VS\VC\Auxiliary\Build\vcvarsarm64.bat".
Definition vcvarsx86_arm64 : string := "C:\VS\VC\Auxiliary\Build\vcvarsx86_arm64.bat".

Definition tmpname : string := "C:\Temp\tmpk3v9_2aq.bat".

Definition separator : string := "0b5f2a3e-6c1d-4e8f-9a7b-3d2c1e0f4a5b".

Definition environ : gmap string string :=
  <["PROGRAMFILES(X86)" := program_files]>
    (<["PROCESSOR_ARCHITECTURE" := "AMD64"]>
       (<["PATH" := "C:\Windows"]> ∅)).

(** [[{"installationPath": "C:/VS"}]] *)
Definition locator_json : string :=
  "[{" +:+ dquote +:+ "installationPath" +:+ dquote +:+ ": "
       +:+ dquote +:+ "C:/VS" +:+ dquote +:+ "}]".

(** A decoder that knows the documents used here. *)
Definition loads (doc : string) : option json :=
  if String.eqb doc locator_json
  then Some (JArr [JObj [("installationPath", JStr "C:/VS")]])
  else if String.eqb doc "[]" then Some (JArr [])
  else None.

Definition lines (ls : list string) : string :=
  foldr (λ l acc, l +:+ nl +:+ acc) "" ls.

(** The machine: which files exist, what the architecture query gives, what
    the locator prints and how the setup script ends. *)
Definition machine (arch : wow64_result) (locator_out : string)
    (script : proc_result) : world :=
  {| sys_platform := "win32";
     sys_argv := ["vsenv"; "cl"; "/c"; "hello.c"];
     os_environ := environ;
     IsWow64Process2 := arch;
     path_str := WinPath.path_str;
     path_join := WinPath.path_join;
     which := λ cmd, if String.eqb cmd "gcc" then Some "C:\mingw64\bin\gcc.EXE" else None;
     json_loads := loads;
     uuid4 := separator;
     mktemp := λ _, tmpname;
     spawn := λ args f,
       if bool_decide (head args = Some vswhere)
       then (f, ProcExited 0 locator_out)
       else (f, script);
     execvpe := λ _ _ _, None |}.

Definition disk (scripts : list string) : gmap string string :=
  foldr (λ p f, <[p := ""]> f) (<[vswhere := ""]> ∅) scripts.

Definition boot (scripts : list string) : state := mkState (disk scripts) [].

Definition amd64 : wow64_result := Wow64Returns true 0x8664.

Definition script_out : string :=
  lines ["[vcvarsall.bat] Environment initialized"; "X=0"; separator;
         "FOO=bar"; ""; "no assignment here"; "X=1"; "PATH=C:\VS\bin"; "X=2";
         "LIB=C:\VS\lib"].

Definition other_script_out : string :=
  lines ["FOO=before"; separator;
         "FOO=bar"; ""; "no assignment here"; "X=1"; "PATH=C:\VS\bin"; "X=2";
         "LIB=C:\VS\lib"].

Definition merged : gmap string string :=
  <["LIB" := "C:\VS\lib"]>
    (<["X" := "2"]> (<["FOO" := "bar"]> (<["PATH" := "C:\VS\bin"]> environ))).

Definition host : world := machine amd64 locator_json (ProcExited 0 script_out).
Definition other_host : world := machine amd64 locator_json (ProcExited 0 other_script_out).

(** The state a forced call leaves behind. *)
Definition after (w : world) (scripts : list string) : state :=
  (_setup_env w None true (boot scripts)).1.

End Demo.

(** ** Vocabulary of the further properties *)

(** The same world with another outcome of the architecture query. *)
Definition with_wow64 (q : wow64_result) (w : world) : world :=
  {| sys_platform := sys_platform w;
     sys_argv := sys_argv w;
     os_environ := os_environ w;
     IsWow64Process2 := q;
     path_str := path_str w;
     path_join := path_join w;
     which := which w;
     json_loads := json_loads w;
     uuid4 := uuid4 w;
     mktemp := mktemp w;
     spawn := spawn w;
     execvpe := execvpe w |}.

(** The same world with another process environment. *)
Definition with_environ (e : gmap string string) (w : world) : world :=
  {| sys_platform := sys_platform w;
     sys_argv := sys_argv w;
     os_environ := e;
     IsWow64Process2 := IsWow64Process2 w;
     path_str := path_str w;
     path_join := path_join w;
     which := which w;
     json_loads := json_loads w;
     uuid4 := uuid4 w;
     mktemp := mktemp w;
     spawn := spawn w;
     execvpe := execvpe w |}.

(** The same world with another command line. *)
Definition with_argv (argv : list string) (w : world) : world :=
  {| sys_platform := sys_platform w;
     sys_argv := argv;
     os_environ := os_environ w;
     IsWow64Process2 := IsWow64Process2 w;
     path_str := path_str w;
     path_join := path_join w;
     which := which w;
     json_loads := json_loads w;
     uuid4 := uuid4 w;
     mktemp := mktemp w;
     spawn := spawn w;
     execvpe := execvpe w |}.

(** The same world with another decoder. *)
Definition with_json (d : string → option json) (w : world) : world :=
  {| sys_platform := sys_platform w;
     sys_argv := sys_argv w;
     os_environ := os_environ w;
     IsWow64Process2 := IsWow64Process2 w;
     path_str := path_str w;
     path_join := path_join w;
     which := which w;
     json_loads := d;
     uuid4 := uuid4 w;
     mktemp := mktemp w;
     spawn := spawn w;
     execvpe := execvpe w |}.

(** The same world with another [os.execvpe]. *)
Definition with_execvpe
    (ex : string → list string → gmap string string → option exn)
    (w : world) : world :=
  {| sys_platform := sys_platform w;
     sys_argv := sys_argv w;
     os_environ := os_environ w;
     IsWow64Process2 := IsWow64Process2 w;
     path_str := path_str w;
     path_join := path_join w;
     which := which w;
     json_loads := json_loads w;
     uuid4 := uuid4 w;
     mktemp := mktemp w;
     spawn := spawn w;
     execvpe := ex |}.

(** The same world with other child processes. *)
Definition with_spawn
    (sp : list string → gmap string string → gmap string string * proc_result)
    (w : world) : world :=
  {| sys_platform := sys_platform w;
     sys_argv := sys_argv w;
     os_environ := os_environ w;
     IsWow64Process2 := IsWow64Process2 w;
     path_str := path_str w;
     path_join := path_join w;
     which := which w;
     json_loads := json_loads w;
     uuid4 := uuid4 w;
     mktemp := mktemp w;
     spawn := sp;
     execvpe := execvpe w |}.

(** Text made of the given lines, each ended by a line feed. *)
Definition unlines (ls : list string) : string :=
  foldr (λ l acc, l +:+ nl +:+ acc) "" ls.

(** Whether a line boundary of [str.splitlines()] occurs in the text. *)
Fixpoint has_linebreak (s : string) : bool :=
  match s with
  | EmptyString => false
  | String c r => Str.is_linebreak c || has_linebreak r
  end.

(** The primary and the fallback setup script of lines 94-102. *)
Definition vcvars_candidates (w : world) (arch : option string)
    (installation_path : string) : string * string :=
  if bool_decide (arch = Some "arm64")
  then (joinpath w installation_path "VC/Auxiliary/Build/vcvarsarm64.bat",
        joinpath w installation_path "VC/Auxiliary/Build/vcvarsx86_arm64.bat")
  else (joinpath w installation_path "VC/Auxiliary/Build/vcvars64.bat",
        joinpath w installation_path "VC/Auxiliary/Build/vcvarsx86_amd64.bat").

(** The path of the locator under a program-files directory, line 71. *)
Definition vswhere_under (w : world) (root : string) : string :=
  joinpath w root "Microsoft Visual Studio/Installer/vswhere.exe".

(** The program-files directory of line 69. *)
Definition program_files_root (w : world) : option string :=
  py_or (environ_get w "ProgramFiles(x86)") (environ_get w "ProgramFiles").

(** A statement after which the file system is what it was. *)
Definition keeps_fs {A} (m : M A) : Prop := ∀ s s' r, m s = (s', r) → fs s' = fs s.

(** The messages of the program's own [Error]. *)
Definition domain_message (msg : string) : Prop :=
  msg = "Unable to detect native OS architecture"
  ∨ (∃ vswhere, msg = "Could not find " +:+ vswhere)
  ∨ msg = "Could not parse vswhere.exe output"
  ∨ msg = "Could not find vcvars.bat".

(** More machines. *)
Module Hosts.

(** The host of [Demo], started from a Cygwin shell. *)
Definition cygwin : world :=
  with_environ (<["OSTYPE" := "cygwin"]> Demo.environ) Demo.host.

(** A Linux host. *)
Definition linux : world :=
  {| sys_platform := "linux";
     sys_argv := ["vsenv"; "make"; "-j4"];
     os_environ := <["PATH" := "/usr/bin"]> (<["HOME" := "/root"]> ∅);
     IsWow64Process2 := Wow64Raises (AttributeError "module 'ctypes' has no attribute 'windll'");
     path_str := λ p, p;
     path_join := λ base rel, base +:+ "/" +:+ rel;
     which := λ _, None;
     json_loads := λ _, None;
     uuid4 := Demo.separator;
     mktemp := λ _, "/tmp/tmpq1w2e3r4.bat";
     spawn := λ _ f, (f, ProcNotStarted "No such file or directory");
     execvpe := λ _ _ _, None |}.

(** The host of [Demo] without the program-files variables. *)
Definition bare : world :=
  with_environ (<["PROCESSOR_ARCHITECTURE" := "AMD64"]> ∅) Demo.host.

(** The host of [Demo] when the locator exits with status 87. *)
Definition locator_fails : world :=
  with_spawn (λ _ f, (f, ProcExited 87 "")) Demo.host.

(** The host of [Demo] whose setup script deletes the batch file that
    called it. *)
Definition self_deleting : world :=
  with_spawn (λ args f,
                if bool_decide (head args = Some Demo.vswhere)
                then (f, ProcExited 0 Demo.locator_json)
                else (delete Demo.tmpname f, ProcExited 0 Demo.script_out))
    Demo.host.

(** A record without an installation path. *)
Definition nameless_json : string :=
  "[{" +:+ dquote +:+ "instanceId" +:+ dquote +:+ ": "
       +:+ dquote +:+ "5f2c1a7e" +:+ dquote +:+ "}]".

Definition nameless : world :=
  with_json (λ doc, if String.eqb doc nameless_json
                    then Some (JArr [JObj [("instanceId", JStr "5f2c1a7e")]])
                    else None)
    (Demo.machine Demo.amd64 nameless_json (ProcExited 0 Demo.script_out)).

(** The host of [Demo] whose setup script never prints the separator. *)
Definition silent_out : string := unlines ["FOO=bar"; "X=1"].
Definition silent : world :=
  Demo.machine Demo.amd64 Demo.locator_json (ProcExited 0 silent_out).

(** The host of [Demo] run without a command. *)
Definition no_command : world := with_argv ["vsenv"] Demo.host.

(** The host of [Demo] where the command cannot be executed. *)
Definition no_such_command : world :=
  with_execvpe (λ _ _ _, Some (OSError "No such file or directory")) Demo.host.

(** An [os.execvpe] that refuses an environment with an empty variable
    name. *)
Definition strict_execvpe (file : string) (argv : list string)
    (env : gmap string string) : option exn :=
  if bool_decide (is_Some (env !! ""))
  then Some (ValueError "illegal environment variable name")
  else None.

(** The host of [Demo] whose setup script prints a line [=v]. *)
Definition nameless_variable_out : string :=
  unlines [Demo.separator; "FOO=bar"; "=v"].
Definition nameless_variable : world :=
  with_execvpe strict_execvpe
    (Demo.machine Demo.amd64 Demo.locator_json (ProcExited 0 nameless_variable_out)).

(** An arm64 host where the program-files variable and the installation
    path reported by the locator both end in a separator. *)
Definition trailing_json : string :=
  "[{" +:+ dquote +:+ "installationPath" +:+ dquote +:+ ": "
       +:+ dquote +:+ "C:/VS/" +:+ dquote +:+ "}]".

Definition trailing : world :=
  with_json (λ doc, if String.eqb doc trailing_json
                    then Some (JArr [JObj [("installationPath", JStr "C:/VS/")]])
                    else None)
    (with_environ (<["PROGRAMFILES(X86)" := "C:\Program Files (x86)\"]> Demo.environ)
       (Demo.machine (Wow64Returns true 0xAA64) trailing_json
          (ProcExited 0 Demo.script_out))).

End Hosts.

(** ** Tactics *)

(** Closes an equation between closed terms by evaluating both sides. *)
Ltac by_evaluation :=
  lazymatch goal with
  | |- @eq ?T ?a ?b => vm_cast_no_check (@eq_refl T b)
  end.

Ltac unfold_M :=
  unfold mbind, M_bind, mret, M_ret, bind, ret, raise, try_except, try_finally,
    emit, get_fs, put_fs in *.

(** ** Reasoning about the monad *)

(** The [str] operations on examples. *)

Example splitlines_ex1 :
  Str.splitlines ("a" +:+ String Str.LF ("" +:+ String Str.LF "b=c"))
  = ["a"; ""; "b=c"].
Proof. reflexivity. Qed.

Example splitlines_ex2 :
  Str.splitlines ("a" +:+ String Str.CR (String Str.LF "b" +:+ String Str.LF ""))
  = ["a"; "b"].
Proof. reflexivity. Qed.

Example split1_ex : Str.split1 "="%char "A=b=c" = ["A"; "b=c"].
Proof. reflexivity. Qed.

Example lower_ex : Str.lower "AMD64" = "amd64".
Proof. reflexivity. Qed.

Lemma bind_unfold {A B} (m : M A) (k : A → M B) (s : state) :
  (m ≫= k) s =
  match m s with
  | (s', Ret a) => k a s'
  | (s', Raise e) => (s', Raise e)
  | (s', Replaced) => (s', Replaced)
  end.
Proof. reflexivity. Qed.

Lemma bind_ret_eq {A B} (m : M A) (k : A → M B) (s s' : state) (a : A) :
  m s = (s', Ret a) → (m ≫= k) s = k a s'.
Proof. intros H. rewrite bind_unfold, H. reflexivity. Qed.

Lemma bind_raise_eq {A B} (m : M A) (k : A → M B) (s s' : state) (e : exn) :
  m s = (s', Raise e) → (m ≫= k) s = (s', Raise e).
Proof. intros H. rewrite bind_unfold, H. reflexivity. Qed.

Lemma bind_Ret_inv {A B} (m : M A) (k : A → M B) (s s' : state) (b : B) :
  (m ≫= k) s = (s', Ret b) →
  ∃ a s1, m s = (s1, Ret a) ∧ k a s1 = (s', Ret b).
Proof.
  rewrite bind_unfold. destruct (m s) as [s1 [a|e|]]; intros H.
  - exists a, s1. split; [reflexivity | exact H].
  - discriminate H.
  - discriminate H.
Qed.

Lemma bind_Raise_inv {A B} (m : M A) (k : A → M B) (s s' : state) (e : exn) :
  (m ≫= k) s = (s', Raise e) →
  m s = (s', Raise e) ∨ ∃ a s1, m s = (s1, Ret a) ∧ k a s1 = (s', Raise e).
Proof.
  rewrite bind_unfold. destruct (m s) as [s1 [a|e'|]]; intros H.
  - right. exists a, s1. split; [reflexivity | exact H].
  - left. injection H as -> ->. reflexivity.
  - discriminate H.
Qed.

(** ** The output scan *)

Lemma merge_line_total (env : gmap string string) (line : string) (s : state) :
  merge_line env line s = (s, Ret (merged_line env line)).
Proof.
  unfold merge_line, merged_line. destruct line as [|c r]; [reflexivity|].
  cbn [Str.truthy negb]. rewrite bind_unfold. unfold try_except.
  rewrite bind_unfold. unfold Str.split1.
  destruct (Str.cut "=" (String c r)) as [[k v]|]; reflexivity.
Qed.

Lemma merge_lines_total (lines : list string) (env : gmap string string) (s : state) :
  merge_lines env lines s = (s, Ret (foldl merged_line env lines)).
Proof.
  revert env. induction lines as [|line rest IH]; intros env; [reflexivity|].
  cbn [merge_lines foldl].
  rewrite (bind_ret_eq _ _ _ _ _ (merge_line_total env line s)). apply IH.
Qed.

Lemma cut_none (c : ascii) (s : string) :
  Str.contains c s = false → Str.cut c s = None.
Proof.
  induction s as [|a r IH]; [reflexivity|]. cbn.
  destruct (Ascii.eqb a c); [discriminate|]. cbn. intros H. rewrite (IH H). reflexivity.
Qed.

Lemma append_nil_l (s : string) : "" +:+ s = s.
Proof. reflexivity. Qed.

Lemma append_cons (a : ascii) (r s : string) :
  String a r +:+ s = String a (r +:+ s).
Proof. reflexivity. Qed.

Lemma cut_first (c : ascii) (k v : string) :
  Str.contains c k = false →
  Str.cut c (k +:+ String c v) = Some (k, v).
Proof.
  induction k as [|a r IH]; cbn [Str.contains].
  - intros _. rewrite append_nil_l. cbn. rewrite Ascii.eqb_refl. reflexivity.
  - rewrite append_cons. cbn [Str.cut].
    destruct (Ascii.eqb a c); [discriminate|]. cbn [orb]. intros H.
    rewrite (IH H). reflexivity.
Qed.

Lemma cut_some_inv (c : ascii) (s k v : string) :
  Str.cut c s = Some (k, v) →
  s = k +:+ String c v ∧ Str.contains c k = false.
Proof.
  revert k. induction s as [|a r IH]; intros k; cbn; [discriminate|].
  destruct (Ascii.eqb a c) eqn:E.
  - intros [= <- <-]. apply Ascii.eqb_eq in E. subst a. split; reflexivity.
  - destruct (Str.cut c r) as [[k' v']|]; [|discriminate].
    intros [= <- <-]. destruct (IH k' eq_refl) as [-> Hk].
    split; [reflexivity|]. cbn. rewrite E. exact Hk.
Qed.

Lemma merged_line_blank (env : gmap string string) : merged_line env "" = env.
Proof. reflexivity. Qed.

Lemma merged_line_no_eq (env : gmap string string) (line : string) :
  Str.contains "="%char line = false → merged_line env line = env.
Proof.
  intros H. unfold merged_line. destruct line; [reflexivity|].
  rewrite (cut_none _ _ H). reflexivity.
Qed.

Lemma merged_line_assignment (env : gmap string string) (k v : string) :
  Str.contains "="%char k = false →
  merged_line env (assignment k v) = <[k := v]> env.
Proof.
  intros H. unfold merged_line, assignment.
  rewrite (cut_first _ _ v H).
  destruct k; reflexivity.
Qed.

Lemma merged_line_lookup_other (env : gmap string string) (line k : string) :
  (∀ v, line ≠ assignment k v) →
  merged_line env line !! k = env !! k.
Proof.
  intros H. unfold merged_line. destruct line as [|c r]; [reflexivity|].
  destruct (Str.cut "=" (String c r)) as [[k' v']|] eqn:E; [|reflexivity].
  apply cut_some_inv in E as [E _].
  destruct (decide (k' = k)) as [->|Hne].
  - exfalso. exact (H v' E).
  - apply lookup_insert_ne. exact Hne.
Qed.

Lemma foldl_merged_lookup_other (lines : list string) (env : gmap string string) (k : string) :
  (∀ line v, line ∈ lines → line ≠ assignment k v) →
  foldl merged_line env lines !! k = env !! k.
Proof.
  revert env. induction lines as [|line rest IH]; intros env H; [reflexivity|].
  cbn [foldl]. rewrite IH.
  - apply merged_line_lookup_other. intros v. apply H. left.
  - intros l v Hl. apply H. right. exact Hl.
Qed.

Lemma foldl_merged_last (l1 l3 : list string) (env : gmap string string) (k v : string) :
  Str.contains "="%char k = false →
  (∀ line v', line ∈ l3 → line ≠ assignment k v') →
  foldl merged_line env (l1 ++ assignment k v :: l3) !! k = Some v.
Proof.
  intros Hk H3. rewrite foldl_app. cbn [foldl].
  rewrite (foldl_merged_lookup_other _ _ _ H3).
  rewrite (merged_line_assignment _ _ _ Hk). apply lookup_insert_eq.
Qed.

Lemma merged_line_keeps (env : gmap string string) (line k : string) :
  is_Some (env !! k) → is_Some (merged_line env line !! k).
Proof.
  intros H. unfold merged_line. destruct line as [|c r]; [exact H|].
  destruct (Str.cut "=" (String c r)) as [[k' v']|]; [|exact H].
  rewrite lookup_insert. case_decide; [eexists; reflexivity | exact H].
Qed.

Lemma foldl_merged_keeps (lines : list string) (env : gmap string string) (k : string) :
  is_Some (env !! k) → is_Some (foldl merged_line env lines !! k).
Proof.
  revert env. induction lines as [|line rest IH]; intros env H; [exact H|].
  cbn [foldl]. apply IH, merged_line_keeps, H.
Qed.

Lemma skip_separator_first (sep : string) (pre post : list string) :
  sep ∉ pre → skip_separator sep (pre ++ sep :: post) = post.
Proof.
  induction pre as [|l pre IH]; intros H; cbn.
  - rewrite String.eqb_refl. reflexivity.
  - destruct (String.eqb l sep) eqn:E.
    + apply String.eqb_eq in E. subst l. exfalso. apply H. left.
    + apply IH. intros Hin. apply H. right. exact Hin.
Qed.

Lemma skip_separator_absent (sep : string) (lines : list string) :
  sep ∉ lines → skip_separator sep lines = [].
Proof.
  induction lines as [|l rest IH]; intros H; cbn; [reflexivity|].
  destruct (String.eqb l sep) eqn:E.
  - apply String.eqb_eq in E. subst l. exfalso. apply H. left.
  - apply IH. intros Hin. apply H. right. exact Hin.
Qed.

Lemma scan_output_total (sep out : string) (env : gmap string string) (s : state) :
  scan_output sep out env s
  = (s, Ret (foldl merged_line env (skip_separator sep (Str.splitlines out)))).
Proof. unfold scan_output. apply merge_lines_total. Qed.

(** ** How the blocks of [_setup_env] move the state *)

Lemma stateless_inv {A} (m : M A) (s s' : state) (r : result A) :
  stateless m → m s = (s', r) → s' = s.
Proof. intros Hm H. specialize (Hm s). rewrite H in Hm. exact Hm. Qed.

Lemma stateless_bind {A B} (m : M A) (k : A → M B) :
  stateless m → (∀ a, stateless (k a)) → stateless (m ≫= k).
Proof.
  intros Hm Hk s. rewrite bind_unfold. specialize (Hm s).
  destruct (m s) as [s1 [a|e|]]; cbn in Hm; subst s1; [apply Hk | reflexivity..].
Qed.

Lemma stateless_Path2 (w : world) (root : option string) (rel : string) :
  stateless (pathlib_Path2 w root rel).
Proof. intros s. destruct root; reflexivity. Qed.

Lemma stateless_exists (p : string) : stateless (path_exists p).
Proof. intros s. reflexivity. Qed.

Lemma stateless_json_loads (w : world) (out : string) : stateless (json_loads_ w out).
Proof. intros s. unfold json_loads_. destruct (json_loads w out); reflexivity. Qed.

Lemma stateless_index0 (j : json) : stateless (json_index0 j).
Proof. intros s. unfold json_index0. repeat case_match; reflexivity. Qed.

Lemma stateless_getitem (j : json) (k : string) : stateless (json_getitem j k).
Proof. intros s. unfold json_getitem. repeat case_match; reflexivity. Qed.

Lemma stateless_Path (w : world) (j : json) : stateless (pathlib_Path w j).
Proof. intros s. destruct j; reflexivity. Qed.

Lemma stateless_ret {A} (a : A) : stateless (ret a).
Proof. intros s. reflexivity. Qed.

Lemma stateless_raise {A} (e : exn) : stateless (raise (A := A) e).
Proof. intros s. reflexivity. Qed.

Lemma stateless_try_except {A} (body : M A) (handles : exn → bool) (handler : exn → M A) :
  stateless body → (∀ e, stateless (handler e)) →
  stateless (try_except body handles handler).
Proof.
  intros Hb Hh s. unfold try_except. specialize (Hb s).
  destruct (body s) as [s1 [a|e|]]; cbn in Hb; subst s1; [reflexivity| |reflexivity].
  destruct (handles e); [apply Hh | reflexivity].
Qed.

Lemma stateless_query (w : world) : stateless (query_native_arch w).
Proof.
  unfold query_native_arch. apply stateless_try_except.
  - destruct (IsWow64Process2 w) as [e|ok v]; [apply stateless_raise|].
    destruct ok; apply stateless_ret.
  - intros e. apply stateless_ret.
Qed.

Lemma stateless_detect (w : world) : stateless (_windows_detect_native_arch w).
Proof.
  unfold _windows_detect_native_arch.
  destruct (negb _); [apply stateless_ret|].
  apply stateless_bind; [apply stateless_query|]. intros [a|]; [apply stateless_ret|].
  cbn zeta. destruct (negb _); [|apply stateless_ret].
  apply stateless_bind; [|intros a; apply stateless_ret].
  apply stateless_try_except; [|intros e; apply stateless_raise].
  apply stateless_bind; [|intros v; apply stateless_ret].
  unfold environ_getitem. destruct (environ_get w _); [apply stateless_ret|apply stateless_raise].
Qed.

Lemma stateless_select (w : world) (arch : option string) (p : string) :
  stateless (select_vcvars w arch p).
Proof.
  unfold select_vcvars.
  apply stateless_bind.
  - destruct (bool_decide _); cbn zeta;
      (apply stateless_bind; [apply stateless_exists|]); intros ex;
      destruct (negb ex); apply stateless_ret.
  - intros vcvars. apply stateless_bind; [apply stateless_exists|]. intros ex.
    destruct (negb ex); [apply stateless_raise | apply stateless_ret].
Qed.

Lemma subprocess_run_eq (w : world) (args : list string) (s : state) :
  subprocess_run w args s =
  (mkState (spawn w args (fs s)).1 (EvRun args (spawn w args (fs s)).2 :: trace s),
   match (spawn w args (fs s)).2 with
   | ProcNotStarted reason => Raise (OSError reason)
   | ProcExited returncode stdout =>
       if (returncode =? 0)%Z then Ret stdout
       else Raise (CalledProcessError returncode args)
   end).
Proof.
  unfold subprocess_run. unfold_M. cbn.
  destruct (spawn w args (fs s)).2 as [rc out|e]; [destruct (rc =? 0)%Z|]; reflexivity.
Qed.

Lemma subprocess_run_Ret (w : world) (args : list string) (s s' : state) (out : string) :
  subprocess_run w args s = (s', Ret out) →
  (spawn w args (fs s)).2 = ProcExited 0 out ∧
  s' = mkState (spawn w args (fs s)).1 (EvRun args (ProcExited 0 out) :: trace s).
Proof.
  rewrite subprocess_run_eq.
  destruct (spawn w args (fs s)).2 as [rc o|e]; [|intros [=]].
  destruct (Z.eqb_spec rc 0) as [->|]; intros [= <- <-]. split; reflexivity.
Qed.

Lemma find_installation_Ret (w : world) (s s' : state) (p : string) :
  find_installation w s = (s', Ret p) →
  ∃ vswhere out,
    s' = mkState (spawn w (vswhere_cmd vswhere) (fs s)).1
           (EvRun (vswhere_cmd vswhere) (ProcExited 0 out) :: trace s).
Proof.
  unfold find_installation. intros H.
  apply bind_Ret_inv in H as (vswhere & s1 & H1 & H).
  apply stateless_inv in H1 as ->; [|apply stateless_Path2].
  apply bind_Ret_inv in H as (ex & s1 & H1 & H).
  apply stateless_inv in H1 as ->; [|apply stateless_exists].
  destruct ex; [|discriminate H]. cbn [negb] in H.
  apply bind_Ret_inv in H as (out & s1 & H1 & H).
  apply subprocess_run_Ret in H1 as [_ ->].
  exists vswhere, out.
  apply bind_Ret_inv in H as (info & s1 & H1 & H).
  apply stateless_inv in H1 as ->; [|apply stateless_json_loads].
  destruct (json_truthy info); [|discriminate H]. cbn [negb] in H.
  apply bind_Ret_inv in H as (first & s1 & H1 & H).
  apply stateless_inv in H1 as ->; [|apply stateless_index0].
  apply bind_Ret_inv in H as (ip & s1 & H1 & H).
  apply stateless_inv in H1 as ->; [|apply stateless_getitem].
  apply stateless_inv in H as ->; [|apply stateless_Path].
  reflexivity.
Qed.

(** What [run_script] does, in one equation. *)
Lemma run_script_eq (w : world) (vcvars separator : string) (s : state) :
  run_script w vcvars separator s =
  let tmp := mktemp w (fs s) in
  let sp := spawn w [tmp] (<[tmp := batch_script vcvars separator]> (fs s)) in
  let tr := EvRun [tmp] sp.2 :: EvTempfile tmp :: trace s in
  if bool_decide (is_Some (sp.1 !! tmp)) then
    (mkState (delete tmp sp.1) tr,
     match sp.2 with
     | ProcNotStarted reason => Raise (OSError reason)
     | ProcExited returncode stdout =>
         if (returncode =? 0)%Z then Ret stdout
         else Raise (CalledProcessError returncode [tmp])
     end)
  else (mkState sp.1 tr, Raise (OSError "No such file or directory")).
Proof.
  unfold run_script, write_tempfile, subprocess_run, os_unlink. unfold_M. cbn.
  destruct (spawn w _ _) as [f' [rc out|e]]; cbn.
  - destruct (rc =? 0)%Z; cbn; case_bool_decide; reflexivity.
  - case_bool_decide; reflexivity.
Qed.

Lemma compiler_on_path_raises (w : world) (compiler : string) (rest : list string) (s : state) :
  compiler_on_path w (compiler :: rest) s
  = (mkState (fs s) (EvWhich (PyBuiltin "compile") :: trace s),
     Raise (TypeError "expected str, bytes or os.PathLike object, not builtin_function_or_method")).
Proof. reflexivity. Qed.

Lemma setup_env_elsewhere (w : world) (arch : option string) (force : bool) (s : state) :
  ¬ plain_windows w →
  _setup_env w arch force s = (s, Ret (os_environ w)).
Proof.
  intros H. unfold _setup_env.
  destruct (String.eqb_spec (sys_platform w) "win32") as [Hp|Hp]; [|reflexivity].
  cbn. case_bool_decide as Hc; [reflexivity|].
  exfalso. apply H. split; assumption.
Qed.

Lemma setup_env_forced (w : world) (arch : option string) (s : state) :
  plain_windows w →
  _setup_env w arch true s = discover w arch (os_environ w) s.
Proof.
  intros [Hp Hc]. unfold _setup_env. rewrite Hp. cbn.
  rewrite bool_decide_eq_false_2 by exact Hc. reflexivity.
Qed.

Lemma setup_env_unforced (w : world) (arch : option string) (s : state) :
  plain_windows w →
  _setup_env w arch false s
  = (mkState (fs s) (EvWhich (PyBuiltin "compile") :: trace s),
     Raise (TypeError "expected str, bytes or os.PathLike object, not builtin_function_or_method")).
Proof.
  intros [Hp Hc]. unfold _setup_env. rewrite Hp. cbn.
  rewrite bool_decide_eq_false_2 by exact Hc. reflexivity.
Qed.

Lemma stateless_arch (w : world) (arch : option string) :
  stateless (target_arch w arch).
Proof.
  unfold target_arch.
  destruct (opt_truthy arch); [intros s; reflexivity | apply stateless_detect].
Qed.

Lemma run_script_Ret (w : world) (vcvars separator : string) (s s' : state) (out : string) :
  run_script w vcvars separator s = (s', Ret out) →
  ∃ tmp, trace s' = EvRun [tmp] (ProcExited 0 out) :: EvTempfile tmp :: trace s.
Proof.
  rewrite run_script_eq. cbn zeta. case_bool_decide; [|intros [=]].
  destruct (spawn w _ _).2 as [rc o|e] eqn:E; [|intros [=]].
  destruct (Z.eqb_spec rc 0) as [->|]; intros [= <- <-].
  eexists. reflexivity.
Qed.

(** A successful discovery ran the locator, then the script, and returns
    the scan of the script's output. *)
Lemma discover_Ret (w : world) (arch : option string) (env env' : gmap string string)
    (s s' : state) :
  discover w arch env s = (s', Ret env') →
  ∃ vswhere out0 tmp out,
    trace s' = EvRun [tmp] (ProcExited 0 out) :: EvTempfile tmp
                 :: EvRun (vswhere_cmd vswhere) (ProcExited 0 out0) :: trace s
    ∧ env' = foldl merged_line env (skip_separator (uuid4 w) (Str.splitlines out)).
Proof.
  unfold discover. intros H.
  apply bind_Ret_inv in H as (arch' & s1 & H1 & H).
  apply stateless_inv in H1 as ->; [|apply stateless_arch].
  apply bind_Ret_inv in H as (ip & s1 & H1 & H).
  apply find_installation_Ret in H1 as (vswhere & out0 & ->).
  apply bind_Ret_inv in H as (vcvars & s2 & H2 & H).
  apply stateless_inv in H2 as ->; [|apply stateless_select].
  apply bind_Ret_inv in H as (out & s2 & H2 & H).
  apply run_script_Ret in H2 as (tmp & Htr).
  rewrite scan_output_total in H. injection H as <- <-.
  exists vswhere, out0, tmp, out. split; [exact Htr | reflexivity].
Qed.

(** [_setup_env] returns either through one of its early exits, with the
    untouched copy, or after a discovery. *)
Lemma setup_env_Ret (w : world) (arch : option string) (force : bool)
    (env' : gmap string string) (s s' : state) :
  _setup_env w arch force s = (s', Ret env') →
  (s' = s ∧ env' = os_environ w) ∨
  ∃ vswhere out0 tmp out,
    trace s' = EvRun [tmp] (ProcExited 0 out) :: EvTempfile tmp
                 :: EvRun (vswhere_cmd vswhere) (ProcExited 0 out0) :: trace s
    ∧ env' = foldl merged_line (os_environ w)
               (skip_separator (uuid4 w) (Str.splitlines out)).
Proof.
  intros H.
  destruct (String.eqb_spec (sys_platform w) "win32") as [Hp|Hp].
  - destruct (decide (environ_get w "OSTYPE" = Some "cygwin")) as [Hc|Hc].
    + rewrite setup_env_elsewhere in H by (intros [_ Hn]; exact (Hn Hc)).
      injection H as <- <-. left. split; reflexivity.
    + destruct force.
      * rewrite setup_env_forced in H by (split; assumption).
        right. apply discover_Ret in H. exact H.
      * rewrite setup_env_unforced in H by (split; assumption). discriminate H.
  - rewrite setup_env_elsewhere in H by (intros [Hn _]; exact (Hp Hn)).
    injection H as <- <-. left. split; reflexivity.
Qed.

(** The captured output of the setup script, read off the trace of a call
    that started from an empty trace. *)
Lemma setup_env_scanned (w : world) (arch : option string) (force : bool)
    (env' : gmap string string) (s s' : state) (tmp out : string) :
  trace s = [] →
  _setup_env w arch force s = (s', Ret env') →
  head (trace s') = Some (EvRun [tmp] (ProcExited 0 out)) →
  env' = foldl merged_line (os_environ w)
           (skip_separator (uuid4 w) (Str.splitlines out)).
Proof.
  intros Hs H Hh. apply setup_env_Ret in H as [[-> _]|(v & o0 & t & o & Htr & ->)].
  - rewrite Hs in Hh. discriminate Hh.
  - rewrite Htr in Hh. injection Hh as _ <-. reflexivity.
Qed.

(** ** What the scan makes of the lines *)

Lemma contains_assignment (c : ascii) (line : string) :
  Str.contains c line = true →
  ∃ k v, line = k +:+ String c v ∧ Str.contains c k = false.
Proof.
  intros H. destruct (Str.cut c line) as [[k v]|] eqn:E.
  - exists k, v. apply cut_some_inv. exact E.
  - exfalso. revert H E. induction line as [|a r IH]; cbn; [discriminate|].
    destruct (Ascii.eqb a c); cbn; [discriminate|].
    intros H. destruct (Str.cut c r) as [[k v]|]; [discriminate|].
    intros _. exact (IH H eq_refl).
Qed.

(** C1.  In the output scan of [_setup_env], the lines after the first line
    equal to the separator are merged one by one into the copy of the
    environment: a blank line leaves the mapping as it is; a line without
    [=] leaves it as it is and raises nothing; every other line is [k=v]
    with no [=] in [k], and assigns [env[k] = v], replacing an earlier
    value; so of two lines with the same key the later one gives the value
    in the returned environment. *)
Theorem C1_scan_assigns_lines (w : world) (arch : option string) (force : bool)
    (s s' : state) (env' : gmap string string) (tmp out : string)
    (pre post : list string) :
  trace s = [] →
  _setup_env w arch force s = (s', Ret env') →
  head (trace s') = Some (EvRun [tmp] (ProcExited 0 out)) →
  Str.splitlines out = pre ++ uuid4 w :: post →
  uuid4 w ∉ pre →
  merge_lines (os_environ w) post s' = (s', Ret env')
  ∧ (∀ env st, merge_line env "" st = (st, Ret env))
  ∧ (∀ env line st,
       Str.contains "="%char line = false → merge_line env line st = (st, Ret env))
  ∧ (∀ line, Str.contains "="%char line = true →
       ∃ k v, line = assignment k v ∧ Str.contains "="%char k = false)
  ∧ (∀ env k v st,
       Str.contains "="%char k = false →
       merge_line env (assignment k v) st = (st, Ret (<[k := v]> env)))
  ∧ (∀ l1 l2 l3 k v1 v2,
       post = l1 ++ assignment k v1 :: l2 ++ assignment k v2 :: l3 →
       Str.contains "="%char k = false →
       (∀ line v, line ∈ l3 → line ≠ assignment k v) →
       env' !! k = Some v2).
Proof.
  intros Hs Hrun Hhead Hout Hpre.
  pose proof (setup_env_scanned _ _ _ _ _ _ _ _ Hs Hrun Hhead) as Henv.
  rewrite Hout, (skip_separator_first _ _ _ Hpre) in Henv.
  split; [rewrite merge_lines_total, Henv; reflexivity|].
  split; [intros env st; apply merge_line_total|].
  split.
  { intros env line st H. rewrite merge_line_total, (merged_line_no_eq _ _ H). reflexivity. }
  split; [intros line H; apply contains_assignment, H|].
  split.
  { intros env k v st H. rewrite merge_line_total, (merged_line_assignment _ _ _ H). reflexivity. }
  intros l1 l2 l3 k v1 v2 Hpost Hk Hl3. rewrite Henv, Hpost.
  replace (l1 ++ assignment k v1 :: l2 ++ assignment k v2 :: l3)
    with ((l1 ++ assignment k v1 :: l2) ++ assignment k v2 :: l3)
    by (rewrite <- app_assoc; reflexivity).
  apply foldl_merged_last; assumption.
Qed.

Lemma C1_witness :
  trace (Demo.boot [Demo.vcvars64]) = []
  ∧ _setup_env Demo.host None true (Demo.boot [Demo.vcvars64])
    = (Demo.after Demo.host [Demo.vcvars64], Ret Demo.merged)
  ∧ Demo.merged !! "X" = Some "2".
Proof.
  split; [reflexivity|]. split; [by_evaluation|].
  refine (proj2 (proj2 (proj2 (proj2 (proj2
    (C1_scan_assigns_lines Demo.host None true (Demo.boot [Demo.vcvars64])
       (Demo.after Demo.host [Demo.vcvars64]) Demo.merged Demo.tmpname Demo.script_out
       ["[vcvarsall.bat] Environment initialized"; "X=0"]
       ["FOO=bar"; ""; "no assignment here"; "X=1"; "PATH=C:\VS\bin"; "X=2";
        "LIB=C:\VS\lib"]
       _ _ _ _ _)))))
    ["FOO=bar"; ""; "no assignment here"] ["PATH=C:\VS\bin"] ["LIB=C:\VS\lib"]
    "X" "1" "2" _ _ _).
  - reflexivity.
  - by_evaluation.
  - by_evaluation.
  - by_evaluation.
  - intros H. apply elem_of_cons in H as [H|H]; [discriminate H|].
    apply elem_of_cons in H as [H|H]; [discriminate H|]. inversion H.
  - reflexivity.
  - reflexivity.
  - intros line v H E. apply elem_of_cons in H as [H|H]; [|inversion H].
    subst line. discriminate E.
Defined.

(** C5.  Lines of the captured script output up to and including the first
    separator line have no effect on the environment [_setup_env] returns:
    two successful runs from the same process environment, whose captured
    outputs carry the same lines after the first separator line, return
    equal environments, whatever precedes the separator, even lines of the
    shape [KEY=VALUE]. *)
Theorem C5_before_separator_ignored (w1 w2 : world) (arch1 arch2 : option string)
    (force1 force2 : bool) (s1 s2 s1' s2' : state) (env1 env2 : gmap string string)
    (tmp1 tmp2 out1 out2 : string) (pre1 pre2 post : list string) :
  os_environ w1 = os_environ w2 →
  trace s1 = [] →
  trace s2 = [] →
  _setup_env w1 arch1 force1 s1 = (s1', Ret env1) →
  _setup_env w2 arch2 force2 s2 = (s2', Ret env2) →
  head (trace s1') = Some (EvRun [tmp1] (ProcExited 0 out1)) →
  head (trace s2') = Some (EvRun [tmp2] (ProcExited 0 out2)) →
  Str.splitlines out1 = pre1 ++ uuid4 w1 :: post →
  uuid4 w1 ∉ pre1 →
  Str.splitlines out2 = pre2 ++ uuid4 w2 :: post →
  uuid4 w2 ∉ pre2 →
  env1 = env2.
Proof.
  intros Henv Hs1 Hs2 Hr1 Hr2 Hh1 Hh2 Ho1 Hp1 Ho2 Hp2.
  rewrite (setup_env_scanned _ _ _ _ _ _ _ _ Hs1 Hr1 Hh1).
  rewrite (setup_env_scanned _ _ _ _ _ _ _ _ Hs2 Hr2 Hh2).
  rewrite Ho1, Ho2, (skip_separator_first _ _ _ Hp1), (skip_separator_first _ _ _ Hp2).
  rewrite Henv. reflexivity.
Qed.

Lemma C5_witness :
  Demo.script_out ≠ Demo.other_script_out
  ∧ _setup_env Demo.host None true (Demo.boot [Demo.vcvars64])
    = (Demo.after Demo.host [Demo.vcvars64], Ret Demo.merged)
  ∧ _setup_env Demo.other_host None true (Demo.boot [Demo.vcvars64])
    = (Demo.after Demo.other_host [Demo.vcvars64], Ret Demo.merged)
  ∧ Demo.merged = Demo.merged.
Proof.
  split; [discriminate|].
  split; [by_evaluation|]. split; [by_evaluation|].
  refine (C5_before_separator_ignored Demo.host Demo.other_host None None true true
    (Demo.boot [Demo.vcvars64]) (Demo.boot [Demo.vcvars64])
    (Demo.after Demo.host [Demo.vcvars64]) (Demo.after Demo.other_host [Demo.vcvars64])
    Demo.merged Demo.merged Demo.tmpname Demo.tmpname
    Demo.script_out Demo.other_script_out
    ["[vcvarsall.bat] Environment initialized"; "X=0"] ["FOO=before"]
    ["FOO=bar"; ""; "no assignment here"; "X=1"; "PATH=C:\VS\bin"; "X=2";
     "LIB=C:\VS\lib"]
    _ _ _ _ _ _ _ _ _ _ _).
  - reflexivity.
  - reflexivity.
  - reflexivity.
  - by_evaluation.
  - by_evaluation.
  - by_evaluation.
  - by_evaluation.
  - by_evaluation.
  - intros H. apply elem_of_cons in H as [H|H]; [discriminate H|].
    apply elem_of_cons in H as [H|H]; [discriminate H|]. inversion H.
  - by_evaluation.
  - intros H. apply elem_of_cons in H as [H|H]; [discriminate H|]. inversion H.
Defined.

(** C9.  A successful [_setup_env] never drops a variable: every key of the
    process environment at entry is a key of the returned environment. *)
Theorem C9_keys_preserved (w : world) (arch : option string) (force : bool)
    (s s' : state) (env' : gmap string string) (k : string) :
  _setup_env w arch force s = (s', Ret env') →
  is_Some (os_environ w !! k) →
  is_Some (env' !! k).
Proof.
  intros Hrun Hk.
  apply setup_env_Ret in Hrun as [[_ ->]|(v & o0 & t & o & _ & ->)].
  - exact Hk.
  - apply foldl_merged_keeps, Hk.
Qed.

Lemma C9_witness :
  _setup_env Demo.host None true (Demo.boot [Demo.vcvars64])
  = (Demo.after Demo.host [Demo.vcvars64], Ret Demo.merged)
  ∧ is_Some (os_environ Demo.host !! "PROCESSOR_ARCHITECTURE")
  ∧ is_Some (Demo.merged !! "PROCESSOR_ARCHITECTURE").
Proof.
  assert (H1 : _setup_env Demo.host None true (Demo.boot [Demo.vcvars64])
               = (Demo.after Demo.host [Demo.vcvars64], Ret Demo.merged))
    by (by_evaluation).
  assert (H2 : is_Some (os_environ Demo.host !! "PROCESSOR_ARCHITECTURE"))
    by (exists "AMD64"; by_evaluation).
  split; [exact H1|]. split; [exact H2|].
  exact (C9_keys_preserved Demo.host None true (Demo.boot [Demo.vcvars64])
           (Demo.after Demo.host [Demo.vcvars64]) Demo.merged
           "PROCESSOR_ARCHITECTURE" H1 H2).
Defined.

(** ** The architecture detector *)

(** When the [try] block falls through: the query raised [OSError] or
    [AttributeError], reported failure, or gave a machine code outside the
    table. *)
Lemma query_native_arch_None (w : world) (s : state) :
  query_native_arch w s = (s, Ret None) ↔
  match IsWow64Process2 w with
  | Wow64Raises e => is_OSError_or_AttributeError e = true
  | Wow64Returns ok native_arch => ok = false ∨ machine_arch native_arch = None
  end.
Proof.
  unfold query_native_arch, try_except.
  destruct (IsWow64Process2 w) as [e|ok v]; cbn.
  - destruct (is_OSError_or_AttributeError e); cbn; split; intros H;
      try reflexivity; discriminate H.
  - destruct ok; cbn.
    + split.
      * intros [= H]. right. exact H.
      * intros [H|H]; [discriminate H | rewrite H; reflexivity].
    + split; [intros _; left; reflexivity | reflexivity].
Qed.

Lemma truthy_lower (s : string) : Str.truthy (Str.lower s) = Str.truthy s.
Proof. destruct s; reflexivity. Qed.

Lemma truthy_false (s : string) : Str.truthy s = false ↔ s = "".
Proof. destruct s; split; intros H; try reflexivity; discriminate H. Qed.

(** The architecture detector once the [try] block has fallen through. *)
Lemma detect_fallthrough (w : world) (s : state) :
  sys_platform w = "win32" →
  query_native_arch w s = (s, Ret None) →
  _windows_detect_native_arch w s =
  match default "" (environ_get w "PROCESSOR_ARCHITEW6432") with
  | String c r => (s, Ret (Some (Str.lower (String c r))))
  | EmptyString =>
      match environ_get w "PROCESSOR_ARCHITECTURE" with
      | Some v => (s, Ret (Some (Str.lower v)))
      | None => (s, Raise (Error "Unable to detect native OS architecture"))
      end
  end.
Proof.
  intros Hp Hq. unfold _windows_detect_native_arch. rewrite Hp.
  change (negb (String.eqb "win32" "win32")) with false. cbv iota.
  rewrite (bind_ret_eq _ _ _ _ _ Hq). cbn zeta. rewrite truthy_lower.
  destruct (default "" (environ_get w "PROCESSOR_ARCHITEW6432")) as [|c r];
    [|reflexivity].
  cbn [Str.truthy negb]. unfold environ_getitem.
  destruct (environ_get w "PROCESSOR_ARCHITECTURE") as [v|]; reflexivity.
Qed.

(** C7.  On Windows, when the query of the process-information API gives no
    architecture, [_windows_detect_native_arch] returns the lower-cased
    [PROCESSOR_ARCHITEW6432] if that is non-empty, otherwise the lower-cased
    [PROCESSOR_ARCHITECTURE] if it is set, and raises the program's [Error]
    ("Unable to detect native OS architecture") exactly when the first is
    empty or unset and the second is unset. *)
Theorem C7_detect_from_environment (w : world) (s : state) :
  sys_platform w = "win32" →
  query_native_arch w s = (s, Ret None) →
  let w6432 := default "" (environ_get w "PROCESSOR_ARCHITEW6432") in
  (w6432 ≠ "" →
     _windows_detect_native_arch w s = (s, Ret (Some (Str.lower w6432))))
  ∧ (∀ v, w6432 = "" → environ_get w "PROCESSOR_ARCHITECTURE" = Some v →
     _windows_detect_native_arch w s = (s, Ret (Some (Str.lower v))))
  ∧ (w6432 = "" → environ_get w "PROCESSOR_ARCHITECTURE" = None →
     _windows_detect_native_arch w s
     = (s, Raise (Error "Unable to detect native OS architecture")))
  ∧ ((∃ s' e, _windows_detect_native_arch w s = (s', Raise e))
     ↔ w6432 = "" ∧ environ_get w "PROCESSOR_ARCHITECTURE" = None).
Proof.
  intros Hp Hq w6432. rewrite (detect_fallthrough w s Hp Hq). fold w6432.
  repeat split.
  - intros H. destruct w6432; [contradiction|reflexivity].
  - intros v -> ->. reflexivity.
  - intros -> ->. reflexivity.
  - destruct H as (s' & e & H). destruct w6432; [reflexivity|discriminate H].
  - destruct H as (s' & e & H). destruct w6432; [|discriminate H].
    destruct (environ_get w "PROCESSOR_ARCHITECTURE"); [discriminate H|reflexivity].
  - intros [-> ->]. eexists _, _. reflexivity.
Qed.

Lemma C7_witness :
  let w := Demo.machine (Wow64Raises (AttributeError "function 'IsWow64Process2' not found"))
             Demo.locator_json (ProcExited 0 Demo.script_out) in
  sys_platform w = "win32"
  ∧ query_native_arch w (Demo.boot []) = (Demo.boot [], Ret None)
  ∧ _windows_detect_native_arch w (Demo.boot []) = (Demo.boot [], Ret (Some "amd64")).
Proof.
  intros w. split; [reflexivity|]. split; [reflexivity|].
  refine (proj1 (proj2 (C7_detect_from_environment w (Demo.boot []) _ _)) "AMD64" _ _).
  - reflexivity.
  - reflexivity.
  - by_evaluation.
  - by_evaluation.
Defined.

(** ** What a statement may add to the trace *)

Lemma emits_stateless {A} (P : event → Prop) (m : M A) :
  stateless m → emits P m.
Proof.
  intros Hm s s' r H. apply stateless_inv in H as ->; [|exact Hm].
  exists []. split; [reflexivity | constructor].
Qed.

Lemma emits_ret {A} (P : event → Prop) (a : A) : emits P (ret a).
Proof. apply emits_stateless. intros s. reflexivity. Qed.

Lemma emits_raise {A} (P : event → Prop) (e : exn) : emits P (raise (A := A) e).
Proof. apply emits_stateless. intros s. reflexivity. Qed.

Lemma emits_emit (P : event → Prop) (ev : event) : P ev → emits P (emit ev).
Proof.
  intros Hev s s' r [= <- <-]. exists [ev]. split; [reflexivity|].
  constructor; [exact Hev | constructor].
Qed.

Lemma emits_get_fs (P : event → Prop) : emits P get_fs.
Proof. apply emits_stateless. intros s. reflexivity. Qed.

Lemma emits_put_fs (P : event → Prop) (f : gmap string string) : emits P (put_fs f).
Proof.
  intros s s' r [= <- <-]. exists []. split; [reflexivity | constructor].
Qed.

Lemma emits_bind {A B} (P : event → Prop) (m : M A) (k : A → M B) :
  emits P m → (∀ a, emits P (k a)) → emits P (m ≫= k).
Proof.
  intros Hm Hk s s' r. rewrite bind_unfold.
  destruct (m s) as [s1 r1] eqn:E. destruct (Hm _ _ _ E) as (evs1 & Ht1 & Hf1).
  destruct r1 as [a|e|].
  - intros H. destruct (Hk a _ _ _ H) as (evs2 & Ht2 & Hf2).
    exists (evs2 ++ evs1). split.
    + rewrite Ht2, Ht1, app_assoc. reflexivity.
    + apply Forall_app. split; assumption.
  - intros [= <- <-]. exists evs1. split; assumption.
  - intros [= <- <-]. exists evs1. split; assumption.
Qed.

Lemma emits_try_except {A} (P : event → Prop) (body : M A) (handles : exn → bool)
    (handler : exn → M A) :
  emits P body → (∀ e, emits P (handler e)) → emits P (try_except body handles handler).
Proof.
  intros Hb Hh s s' r. unfold try_except.
  destruct (body s) as [s1 r1] eqn:E. destruct (Hb _ _ _ E) as (evs1 & Ht1 & Hf1).
  destruct r1 as [a|e|].
  - intros [= <- <-]. exists evs1. split; assumption.
  - destruct (handles e).
    + intros H. destruct (Hh e _ _ _ H) as (evs2 & Ht2 & Hf2).
      exists (evs2 ++ evs1). split.
      * rewrite Ht2, Ht1, app_assoc. reflexivity.
      * apply Forall_app. split; assumption.
    + intros [= <- <-]. exists evs1. split; assumption.
  - intros [= <- <-]. exists evs1. split; assumption.
Qed.

Lemma emits_try_finally {A} (P : event → Prop) (body : M A) (cleanup : M unit) :
  emits P body → emits P cleanup → emits P (try_finally body cleanup).
Proof.
  intros Hb Hc s s' r. unfold try_finally.
  destruct (body s) as [s1 r1] eqn:E. destruct (Hb _ _ _ E) as (evs1 & Ht1 & Hf1).
  assert (Hdone : ∀ r2 : result A,
    (let (s'', rc) := cleanup s1 in
     match rc with
     | Ret _ => (s'', r2) | Raise e => (s'', Raise e) | Replaced => (s'', Replaced)
     end) = (s', r) →
    ∃ evs, trace s' = evs ++ trace s ∧ Forall P evs).
  { intros r2. destruct (cleanup s1) as [s2 rc] eqn:Ec.
    destruct (Hc _ _ _ Ec) as (evs2 & Ht2 & Hf2). intros H.
    assert (s' = s2) as -> by (destruct rc; injection H as <- _; reflexivity).
    exists (evs2 ++ evs1). split.
    - rewrite Ht2, Ht1, app_assoc. reflexivity.
    - apply Forall_app. split; assumption. }
  destruct r1 as [a|e|].
  - apply Hdone.
  - apply Hdone.
  - intros [= <- <-]. exists evs1. split; assumption.
Qed.

Lemma emits_subprocess_run (P : event → Prop) (w : world) (args : list string) :
  (∀ a r, P (EvRun a r)) → emits P (subprocess_run w args).
Proof.
  intros HP s s' r. rewrite subprocess_run_eq. intros [= <- _].
  exists [EvRun args (spawn w args (fs s)).2]. split; [reflexivity|].
  constructor; [apply HP | constructor].
Qed.

Lemma emits_find_installation (P : event → Prop) (w : world) :
  (∀ a r, P (EvRun a r)) → emits P (find_installation w).
Proof.
  intros HP. unfold find_installation.
  apply emits_bind; [apply emits_stateless, stateless_Path2|]. intros vswhere.
  apply emits_bind; [apply emits_stateless, stateless_exists|]. intros ex.
  destruct (negb ex); [apply emits_raise|].
  apply emits_bind; [apply emits_subprocess_run, HP|]. intros out.
  apply emits_bind; [apply emits_stateless, stateless_json_loads|]. intros info.
  destruct (negb (json_truthy info)); [apply emits_raise|].
  apply emits_bind; [apply emits_stateless, stateless_index0|]. intros first.
  apply emits_bind; [apply emits_stateless, stateless_getitem|]. intros ip.
  apply emits_stateless, stateless_Path.
Qed.

Lemma emits_run_script (P : event → Prop) (w : world) (vcvars separator : string) :
  (∀ a r, P (EvRun a r)) → (∀ n, P (EvTempfile n)) →
  emits P (run_script w vcvars separator).
Proof.
  intros HR HT s s' r. rewrite run_script_eq. cbn zeta.
  case_bool_decide; intros [= <- _]; eexists [_; _];
    (split; [reflexivity|]); repeat constructor; auto.
Qed.

Lemma stateless_scan (separator out : string) (env : gmap string string) :
  stateless (scan_output separator out env).
Proof. intros s. rewrite scan_output_total. reflexivity. Qed.

Lemma emits_discover (P : event → Prop) (w : world) (arch : option string)
    (env : gmap string string) :
  (∀ a r, P (EvRun a r)) → (∀ n, P (EvTempfile n)) →
  emits P (discover w arch env).
Proof.
  intros HR HT. unfold discover.
  apply emits_bind; [apply emits_stateless, stateless_arch|]. intros arch'.
  apply emits_bind; [apply emits_find_installation, HR|]. intros ip.
  apply emits_bind; [apply emits_stateless, stateless_select|]. intros vcvars.
  apply emits_bind; [apply emits_run_script; assumption|]. intros out.
  apply emits_stateless, stateless_scan.
Qed.

Lemma emits_compiler_on_path (P : event → Prop) (w : world) (names : list string) :
  (∀ c, P (EvWhich c)) → emits P (compiler_on_path w names).
Proof.
  intros HW. destruct names as [|compiler rest]; [apply emits_ret|].
  intros s s' r. rewrite compiler_on_path_raises. intros [= <- _].
  eexists [_]. split; [reflexivity|]. repeat constructor. apply HW.
Qed.

(** [_setup_env] starts no program but through [subprocess.run], and
    consults the search path only when it is not forced. *)
Lemma emits_setup_env (P : event → Prop) (w : world) (arch : option string) (force : bool) :
  (∀ a r, P (EvRun a r)) → (∀ n, P (EvTempfile n)) →
  (force = false → ∀ c, P (EvWhich c)) →
  emits P (_setup_env w arch force).
Proof.
  intros HR HT HW. unfold _setup_env. cbn zeta.
  destruct (negb _); [apply emits_ret|].
  destruct (bool_decide _); [apply emits_ret|].
  apply emits_bind.
  - destruct force; [apply emits_ret|]. apply emits_compiler_on_path, HW. reflexivity.
  - intros found. destruct found; [apply emits_ret|]. apply emits_discover; assumption.
Qed.

Lemma bind_inv {A B} (m : M A) (k : A → M B) (s s' : state) (r : result B) :
  (m ≫= k) s = (s', r) →
  (∃ a s1, m s = (s1, Ret a) ∧ k a s1 = (s', r))
  ∨ (∃ r0, m s = (s', r0) ∧ ∀ a, r0 ≠ Ret a).
Proof.
  rewrite bind_unfold. destruct (m s) as [s1 [a|e|]]; intros H.
  - left. exists a, s1. split; [reflexivity | exact H].
  - right. injection H as <- _. exists (Raise e). split; [reflexivity | discriminate].
  - right. injection H as <- _. exists Replaced. split; [reflexivity | discriminate].
Qed.

(** ** The temporary script *)

Lemma tidy_no_tempfile (s s' : state) :
  (∃ evs, trace s' = evs ++ trace s ∧ Forall not_tempfile evs) → tidy s s'.
Proof.
  intros (evs & Ht & Hf) evs' name Ht' Hin. rewrite Ht in Ht'.
  apply app_inv_tail in Ht'. subst evs'.
  rewrite Forall_forall in Hf. exfalso. exact (Hf _ Hin name eq_refl).
Qed.

Lemma run_script_tidy (w : world) (vcvars separator : string) (s s' : state)
    (r : result string) :
  run_script w vcvars separator s = (s', r) →
  (∃ outcome, trace s' = EvRun [mktemp w (fs s)] outcome
                           :: EvTempfile (mktemp w (fs s)) :: trace s)
  ∧ fs s' !! mktemp w (fs s) = None.
Proof.
  rewrite run_script_eq. cbn zeta. case_bool_decide as Hex; intros [= <- _]; cbn.
  - split; [eexists; reflexivity | apply lookup_delete_eq].
  - split; [eexists; reflexivity | apply eq_None_not_Some, Hex].
Qed.

Lemma run_script_no_Error (w : world) (vcvars separator : string) (s s' : state) (e : exn) :
  run_script w vcvars separator s = (s', Raise e) → is_Error e = false.
Proof.
  rewrite run_script_eq. cbn zeta. case_bool_decide; [|intros [= _ <-]; reflexivity].
  destruct (spawn w _ _).2 as [rc out|reason]; [destruct (rc =? 0)%Z|];
    intros [= _ <-]; reflexivity.
Qed.

Lemma discover_tidy (w : world) (arch : option string) (env : gmap string string)
    (s s' : state) (r : result (gmap string string)) :
  discover w arch env s = (s', r) → tidy s s'.
Proof.
  assert (HR : ∀ a o, not_tempfile (EvRun a o)) by (intros a o n; discriminate).
  unfold discover. intros H.
  apply bind_inv in H as [(arch' & s1 & H1 & H)|(r0 & H1 & _)]; cycle 1.
  { apply tidy_no_tempfile. apply stateless_inv in H1 as ->; [|apply stateless_arch].
    exists []. split; [reflexivity | constructor]. }
  apply stateless_inv in H1 as ->; [|apply stateless_arch].
  apply bind_inv in H as [(ip & s1 & H1 & H)|(r0 & H1 & _)]; cycle 1.
  { apply tidy_no_tempfile. exact (emits_find_installation _ w HR _ _ _ H1). }
  destruct (emits_find_installation _ w HR _ _ _ H1) as (evs1 & Ht1 & Hf1).
  apply bind_inv in H as [(vcvars & s2 & H2 & H)|(r0 & H2 & _)]; cycle 1.
  { apply tidy_no_tempfile. apply stateless_inv in H2 as ->; [|apply stateless_select].
    exists evs1. split; assumption. }
  apply stateless_inv in H2 as ->; [|apply stateless_select].
  assert (Hend : ∃ r3, run_script w vcvars (uuid4 w) s1 = (s', r3)).
  { apply bind_inv in H as [(out & s3 & H3 & H)|(r0 & H3 & _)].
    - apply stateless_inv in H as ->; [|apply stateless_scan]. eexists. exact H3.
    - eexists. exact H3. }
  destruct Hend as (r3 & H3). apply run_script_tidy in H3 as [(o & Ht3) Hgone].
  intros evs name Ht Hin. rewrite Ht3, Ht1 in Ht.
  change (EvRun [mktemp w (fs s1)] o :: EvTempfile (mktemp w (fs s1)) :: evs1 ++ trace s)
    with ((EvRun [mktemp w (fs s1)] o :: EvTempfile (mktemp w (fs s1)) :: evs1) ++ trace s)
    in Ht.
  apply app_inv_tail in Ht. subst evs.
  apply elem_of_cons in Hin as [Hin|Hin]; [discriminate Hin|].
  apply elem_of_cons in Hin as [Hin|Hin].
  - injection Hin as ->. exact Hgone.
  - rewrite Forall_forall in Hf1. exfalso. exact (Hf1 _ Hin name eq_refl).
Qed.

(** C6.  The temporary batch file does not outlive the extraction step.
    Whatever the run of the script does (exit status zero, a non-zero exit
    status, or no start at all) the file [run_script] created is absent
    when it is done; and when [_setup_env] ends, by return or by exception,
    no temporary file it created is left. *)
Theorem C6_tempfile_removed (w : world) (arch : option string) (force : bool)
    (s s' : state) (r : result (gmap string string)) :
  _setup_env w arch force s = (s', r) →
  (∀ evs name, trace s' = evs ++ trace s → EvTempfile name ∈ evs →
     fs s' !! name = None)
  ∧ (∀ vcvars separator s0,
       let tmp := mktemp w (fs s0) in
       let done := (run_script w vcvars separator s0).1 in
       EvTempfile tmp ∈ trace done ∧ fs done !! tmp = None).
Proof.
  intros H. split.
  - change (tidy s s'). revert H. unfold _setup_env. cbn zeta.
    destruct (negb _).
    { intros [= <- _]. apply tidy_no_tempfile. exists []. split; [reflexivity|constructor]. }
    destruct (bool_decide _).
    { intros [= <- _]. apply tidy_no_tempfile. exists []. split; [reflexivity|constructor]. }
    destruct force.
    + cbn [negb]. intros H. exact (discover_tidy _ _ _ _ _ _ H).
    + cbn [negb]. rewrite bind_unfold, compiler_on_path_raises. intros [= <- _].
      apply tidy_no_tempfile. eexists [_]. split; [reflexivity|].
      repeat constructor. intros n. discriminate.
  - intros vcvars separator s0 tmp done.
    destruct (run_script w vcvars separator s0) as [s1 r1] eqn:E.
    apply run_script_tidy in E as [(o & Ht) Hgone].
    subst done tmp. cbn [fst]. split; [|exact Hgone].
    rewrite Ht. right. left.
Qed.

Lemma C6_witness :
  let w := Demo.machine Demo.amd64 Demo.locator_json (ProcExited 1 "") in
  _setup_env w None true (Demo.boot [Demo.vcvars64])
  = (Demo.after w [Demo.vcvars64], Raise (CalledProcessError 1 [Demo.tmpname]))
  ∧ fs (Demo.after w [Demo.vcvars64]) !! Demo.tmpname = None.
Proof.
  intros w.
  assert (H : _setup_env w None true (Demo.boot [Demo.vcvars64])
              = (Demo.after w [Demo.vcvars64], Raise (CalledProcessError 1 [Demo.tmpname])))
    by (by_evaluation).
  split; [exact H|].
  refine (proj1 (C6_tempfile_removed w None true _ _ _ H)
            [EvRun [Demo.tmpname] (ProcExited 1 ""); EvTempfile Demo.tmpname;
             EvRun (vswhere_cmd Demo.vswhere) (ProcExited 0 Demo.locator_json)]
            Demo.tmpname _ _).
  - by_evaluation.
  - right. left.
Defined.

Example tempfile_removed_on_success :
  fs (Demo.after Demo.host [Demo.vcvars64]) !! Demo.tmpname = None.
Proof. by_evaluation. Qed.

Example tempfile_removed_when_not_started :
  let w := Demo.machine Demo.amd64 Demo.locator_json (ProcNotStarted "Access is denied") in
  _setup_env w None true (Demo.boot [Demo.vcvars64])
  = (Demo.after w [Demo.vcvars64], Raise (OSError "Access is denied"))
  ∧ fs (Demo.after w [Demo.vcvars64]) !! Demo.tmpname = None.
Proof. split; by_evaluation. Qed.

(** ** [main] *)

Lemma main_on_Error (w : world) (s s1 : state) (msg : string) :
  _setup_env w None true s = (s1, Raise (Error msg)) →
  main w s
  = (mkState (fs s1) (EvStderr ("error: " +:+ msg +:+ nl) :: trace s1),
     Raise (AttributeError "module 'os' has no attribute 'exit'")).
Proof.
  intros H. unfold main. rewrite bind_unfold. unfold try_except. rewrite H. reflexivity.
Qed.

(** C2.  When [_setup_env] raises the program's [Error], the program
    prints [error: <message>] on the standard error stream, ends with exit
    status 1, and no [exec] has been attempted.  (The status is the one the
    interpreter gives for the [AttributeError] that [os.exit] raises in the
    handler, whose traceback also goes to the standard error stream.) *)
Theorem C2_error_reported (w : world) (s s1 : state) (msg : string) :
  _setup_env w None true s = (s1, Raise (Error msg)) →
  run_program w s
  = (mkState (fs s1)
       (EvTraceback (AttributeError "module 'os' has no attribute 'exit'")
          :: EvStderr ("error: " +:+ msg +:+ nl) :: trace s1),
     Exited 1)
  ∧ (1 ≠ 0)%Z
  ∧ (∀ evs, trace s1 = evs ++ trace s → Forall not_exec evs).
Proof.
  intros H. split; [|split; [discriminate|]].
  - unfold run_program. rewrite (main_on_Error _ _ _ _ H). reflexivity.
  - assert (HP : emits not_exec (_setup_env w None true)).
    { apply emits_setup_env; intros; intros ?; intros; discriminate. }
    destruct (HP _ _ _ H) as (evs & Ht & Hf).
    intros evs' Ht'. rewrite Ht in Ht'. apply app_inv_tail in Ht'. subst evs'. exact Hf.
Qed.

Lemma C2_witness :
  let w := Demo.machine Demo.amd64 "[]" (ProcExited 0 Demo.script_out) in
  _setup_env w None true (Demo.boot [Demo.vcvars64])
  = (Demo.after w [Demo.vcvars64], Raise (Error "Could not parse vswhere.exe output"))
  ∧ run_program w (Demo.boot [Demo.vcvars64])
    = (mkState (Demo.disk [Demo.vcvars64])
         [EvTraceback (AttributeError "module 'os' has no attribute 'exit'");
          EvStderr ("error: Could not parse vswhere.exe output" +:+ nl);
          EvRun (vswhere_cmd Demo.vswhere) (ProcExited 0 "[]")],
       Exited 1).
Proof.
  intros w.
  assert (H : _setup_env w None true (Demo.boot [Demo.vcvars64])
              = (Demo.after w [Demo.vcvars64],
                 Raise (Error "Could not parse vswhere.exe output")))
    by (by_evaluation).
  split; [exact H|].
  rewrite (proj1 (C2_error_reported w _ _ _ H)). by_evaluation.
Defined.

Lemma emits_main (P : event → Prop) (w : world) :
  (∀ a r, P (EvRun a r)) → (∀ n, P (EvTempfile n)) →
  (∀ t, P (EvStderr t)) → (∀ f a e, P (EvExec f a e)) →
  emits P (main w).
Proof.
  intros HR HT HS HE. unfold main.
  apply emits_bind.
  - apply emits_try_except.
    + apply emits_setup_env; [exact HR | exact HT | discriminate].
    + intros e. apply emits_bind; [apply emits_emit, HS|]. intros _. apply emits_raise.
  - intros env. apply emits_bind.
    + apply emits_stateless. intros s. unfold index1. destruct (_ !! _); reflexivity.
    + intros file. unfold os_execvpe. apply emits_bind; [apply emits_emit, HE|].
      intros _. destruct (execvpe w _ _ _); [apply emits_raise|].
      apply emits_stateless. intros s. reflexivity.
Qed.

Lemma emits_any_main (w : world) : emits any_event (main w).
Proof. apply emits_main; intros; exact I. Qed.

Lemma bind_extends {A B} (m : M A) (k : A → M B) (s s1 s' : state)
    (r1 : result A) (r : result B) :
  (∀ a, emits any_event (k a)) →
  m s = (s1, r1) → (m ≫= k) s = (s', r) →
  ∃ evs, trace s' = evs ++ trace s1.
Proof.
  intros Hk Hm. rewrite bind_unfold, Hm. destruct r1 as [a|e|].
  - intros H. destruct (Hk a _ _ _ H) as (evs & Ht & _). exists evs. exact Ht.
  - intros [= <- _]. exists []. reflexivity.
  - intros [= <- _]. exists []. reflexivity.
Qed.

Lemma try_except_extends {A} (body : M A) (handles : exn → bool) (handler : exn → M A)
    (s s1 s' : state) (r1 r : result A) :
  (∀ e, emits any_event (handler e)) →
  body s = (s1, r1) → try_except body handles handler s = (s', r) →
  ∃ evs, trace s' = evs ++ trace s1.
Proof.
  intros Hh Hb. unfold try_except. rewrite Hb. destruct r1 as [a|e|].
  - intros [= <- _]. exists []. reflexivity.
  - destruct (handles e).
    + intros H. destruct (Hh e _ _ _ H) as (evs & Ht & _). exists evs. exact Ht.
    + intros [= <- _]. exists []. reflexivity.
  - intros [= <- _]. exists []. reflexivity.
Qed.

(** Where the locator exists, [find_installation] runs it. *)
Lemma find_installation_runs (w : world) (s s' : state) (root : string)
    (r : result string) :
  py_or (environ_get w "ProgramFiles(x86)") (environ_get w "ProgramFiles") = Some root →
  is_Some (fs s !! joinpath w root "Microsoft Visual Studio/Installer/vswhere.exe") →
  find_installation w s = (s', r) →
  let cmd := vswhere_cmd (joinpath w root "Microsoft Visual Studio/Installer/vswhere.exe") in
  trace s' = EvRun cmd (spawn w cmd (fs s)).2 :: trace s.
Proof.
  intros Hroot Hex. unfold find_installation. rewrite Hroot.
  cbn [pathlib_Path2]. rewrite bind_unfold. cbn [ret].
  rewrite bind_unfold. unfold path_exists at 1. rewrite bind_unfold. cbn [get_fs ret].
  rewrite bool_decide_eq_true_2 by exact Hex. cbn [negb].
  intros H.
  apply bind_inv in H as [(out & s1 & H1 & H)|(r0 & H1 & _)].
  - rewrite subprocess_run_eq in H1. injection H1 as <- _.
    assert (Hst : stateless
      (info ← json_loads_ w out;
       if negb (json_truthy info) then raise (Error "Could not parse vswhere.exe output")
       else first ← json_index0 info;
            p ← json_getitem first "installationPath"; pathlib_Path w p)).
    { apply stateless_bind; [apply stateless_json_loads|]. intros info.
      destruct (negb (json_truthy info)); [intros s0; reflexivity|].
      apply stateless_bind; [apply stateless_index0|]. intros first.
      apply stateless_bind; [apply stateless_getitem|]. intros p.
      apply stateless_Path. }
    apply stateless_inv in H as ->; [|exact Hst]. reflexivity.
  - rewrite subprocess_run_eq in H1. injection H1 as <- _. reflexivity.
Qed.

Lemma discover_runs_locator (w : world) (arch a : option string) (env : gmap string string)
    (s s' : state) (root : string) (r : result (gmap string string)) :
  target_arch w arch s = (s, Ret a) →
  py_or (environ_get w "ProgramFiles(x86)") (environ_get w "ProgramFiles") = Some root →
  is_Some (fs s !! joinpath w root "Microsoft Visual Studio/Installer/vswhere.exe") →
  discover w arch env s = (s', r) →
  ∃ outcome,
    EvRun (vswhere_cmd (joinpath w root "Microsoft Visual Studio/Installer/vswhere.exe"))
      outcome ∈ trace s'.
Proof.
  intros Ha Hroot Hex. unfold discover. rewrite (bind_ret_eq _ _ _ _ _ Ha). intros H.
  destruct (find_installation w s) as [s0 r0] eqn:Hf.
  pose proof (find_installation_runs _ _ _ _ _ Hroot Hex Hf) as Ht0.
  eapply bind_extends in H as (evs & Ht); [|clear H|exact Hf].
  - eexists. rewrite Ht, Ht0. apply elem_of_app. right. left.
  - intros ip. apply emits_bind; [apply emits_stateless, stateless_select|]. intros vcvars.
    apply emits_bind; [apply emits_run_script; intros; exact I|]. intros out.
    apply emits_stateless, stateless_scan.
Qed.

Lemma main_extends_setup_env (w : world) (s s1 s' : state)
    (r1 : result (gmap string string)) (r : result unit) :
  _setup_env w None true s = (s1, r1) →
  main w s = (s', r) →
  ∃ evs, trace s' = evs ++ trace s1.
Proof.
  intros H1. unfold main. intros H.
  destruct (try_except (_setup_env w None true) is_Error
              (λ exc, print_stderr ("error: " +:+ exn_str exc) ;; os_exit 1) s)
    as [s2 r2] eqn:Ht.
  pose proof Ht as Ht2.
  eapply try_except_extends in Ht2 as (evs2 & Ht2); [| |exact H1].
  - eapply bind_extends in H as (evs & Ht'); [| |exact Ht].
    + exists (evs ++ evs2). rewrite Ht', Ht2, app_assoc. reflexivity.
    + intros env. apply emits_bind.
      * apply emits_stateless. intros s0. unfold index1. destruct (_ !! _); reflexivity.
      * intros file. unfold os_execvpe. apply emits_bind; [apply emits_emit; exact I|].
        intros _. destruct (execvpe w _ _ _); [apply emits_raise|].
        apply emits_stateless. intros s0. reflexivity.
  - intros e. apply emits_bind; [apply emits_emit; exact I|]. intros _. apply emits_raise.
Qed.

(** C10.  [main] calls [_setup_env] with [force] set: a run of the program
    never consults the search path and does not depend on what
    [shutil.which] would answer; on plain Windows the call goes straight to
    the discovery of lines 67-140; and once the architecture is known and
    the locator exists, the locator is run, compiler on the path or not. *)
Theorem C10_main_forces_discovery (w : world) (s : state) :
  (∀ s' r, main w s = (s', r) →
     ∃ evs, trace s' = evs ++ trace s ∧ Forall not_which evs)
  ∧ (∀ f, main (with_which f w) s = main w s)
  ∧ (plain_windows w →
     _setup_env w None true s = discover w None (os_environ w) s)
  ∧ (∀ a root s' r,
       plain_windows w →
       target_arch w None s = (s, Ret a) →
       py_or (environ_get w "ProgramFiles(x86)") (environ_get w "ProgramFiles")
         = Some root →
       is_Some (fs s !! joinpath w root "Microsoft Visual Studio/Installer/vswhere.exe") →
       main w s = (s', r) →
       ∃ outcome,
         EvRun (vswhere_cmd (joinpath w root "Microsoft Visual Studio/Installer/vswhere.exe"))
           outcome ∈ trace s').
Proof.
  split; [|split; [|split]].
  - intros s' r H. apply (emits_main not_which w) in H; [exact H|..];
      intros; intros ?; discriminate.
  - intros f. reflexivity.
  - apply setup_env_forced.
  - intros a root s' r Hw Ha Hroot Hex H.
    destruct (_setup_env w None true s) as [s1 r1] eqn:H1.
    destruct (main_extends_setup_env _ _ _ _ _ _ H1 H) as (evs & Ht).
    rewrite setup_env_forced in H1 by exact Hw.
    destruct (discover_runs_locator _ _ _ _ _ _ _ _ Ha Hroot Hex H1) as (o & Hin).
    exists o. rewrite Ht. apply elem_of_app. right. exact Hin.
Qed.

Lemma C10_witness :
  which Demo.host "gcc" = Some "C:\mingw64\bin\gcc.EXE"
  ∧ plain_windows Demo.host
  ∧ ∃ outcome,
      EvRun (vswhere_cmd (joinpath Demo.host Demo.program_files
                            "Microsoft Visual Studio/Installer/vswhere.exe"))
        outcome ∈ trace (main Demo.host (Demo.boot [Demo.vcvars64])).1.
Proof.
  assert (Hw : plain_windows Demo.host) by (split; [reflexivity | discriminate]).
  split; [reflexivity|]. split; [exact Hw|].
  refine (proj2 (proj2 (proj2
            (C10_main_forces_discovery Demo.host (Demo.boot [Demo.vcvars64]))))
            (Some "amd64") Demo.program_files _
            (main Demo.host (Demo.boot [Demo.vcvars64])).2 Hw _ _ _ _).
  - reflexivity.
  - by_evaluation.
  - exists "". by_evaluation.
  - destruct (main Demo.host (Demo.boot [Demo.vcvars64])); reflexivity.
Defined.

(** ** The setup script for arm64 *)

Lemma path_exists_eq (p : string) (s : state) :
  path_exists p s = (s, Ret (bool_decide (is_Some (fs s !! p)))).
Proof. reflexivity. Qed.

Lemma select_vcvars_arm64_fallback (w : world) (installation_path : string) (s : state) :
  fs s !! joinpath w installation_path "VC/Auxiliary/Build/vcvarsarm64.bat" = None →
  is_Some (fs s !! joinpath w installation_path "VC/Auxiliary/Build/vcvarsx86_arm64.bat") →
  select_vcvars w (Some "arm64") installation_path s
  = (s, Ret (joinpath w installation_path "VC/Auxiliary/Build/vcvarsx86_arm64.bat")).
Proof.
  intros Hprimary Hfallback. unfold select_vcvars.
  rewrite bool_decide_eq_true_2 by reflexivity. cbn zeta.
  set (primary := joinpath w installation_path "VC/Auxiliary/Build/vcvarsarm64.bat") in *.
  set (fallback := joinpath w installation_path "VC/Auxiliary/Build/vcvarsx86_arm64.bat") in *.
  assert (H1 : path_exists primary s = (s, Ret false)).
  { rewrite path_exists_eq, Hprimary. rewrite bool_decide_eq_false_2; [reflexivity|].
    intros [x Hx]. discriminate Hx. }
  assert (H2 : path_exists fallback s = (s, Ret true)).
  { rewrite path_exists_eq. rewrite bool_decide_eq_true_2 by exact Hfallback. reflexivity. }
  erewrite (bind_ret_eq (path_exists primary ≫= _)).
  2:{ rewrite (bind_ret_eq _ _ _ _ _ H1). reflexivity. }
  rewrite (bind_ret_eq _ _ _ _ _ H2). reflexivity.
Qed.

(** C8.  For the target architecture arm64, when [vcvarsarm64.bat] is
    missing under the installation the locator reported and
    [vcvarsx86_arm64.bat] is there, [_setup_env] takes the latter: the
    selection returns its path, the rest of the call is the run of a batch
    file that calls it, and the program's [Error] is not raised. *)
Theorem C8_arm64_fallback (w : world) (arch : option string) (s s1 : state)
    (installation_path : string) :
  plain_windows w →
  target_arch w arch s = (s, Ret (Some "arm64")) →
  find_installation w s = (s1, Ret installation_path) →
  fs s1 !! joinpath w installation_path "VC/Auxiliary/Build/vcvarsarm64.bat" = None →
  is_Some (fs s1 !! joinpath w installation_path "VC/Auxiliary/Build/vcvarsx86_arm64.bat") →
  let fallback := joinpath w installation_path "VC/Auxiliary/Build/vcvarsx86_arm64.bat" in
  select_vcvars w (Some "arm64") installation_path s1 = (s1, Ret fallback)
  ∧ _setup_env w arch true s
    = (out ← run_script w fallback (uuid4 w);
       scan_output (uuid4 w) out (os_environ w)) s1
  ∧ (∀ s' msg, _setup_env w arch true s ≠ (s', Raise (Error msg))).
Proof.
  intros Hw Ha Hf Hprimary Hfallback fallback.
  pose proof (select_vcvars_arm64_fallback _ _ _ Hprimary Hfallback) as Hsel.
  fold fallback in Hsel.
  assert (Hrun : _setup_env w arch true s
                 = (out ← run_script w fallback (uuid4 w);
                    scan_output (uuid4 w) out (os_environ w)) s1).
  { rewrite setup_env_forced by exact Hw. unfold discover.
    rewrite (bind_ret_eq _ _ _ _ _ Ha), (bind_ret_eq _ _ _ _ _ Hf).
    rewrite (bind_ret_eq _ _ _ _ _ Hsel). reflexivity. }
  split; [exact Hsel|]. split; [exact Hrun|].
  intros s' msg. rewrite Hrun. intros H.
  apply bind_Raise_inv in H as [H|(out & s2 & _ & H)].
  - apply run_script_no_Error in H. discriminate H.
  - rewrite scan_output_total in H. discriminate H.
Qed.

Lemma C8_witness :
  let w := Hosts.trailing in
  let s := Demo.boot [Demo.vcvarsx86_arm64] in
  let s1 := mkState (fs s)
              [EvRun (vswhere_cmd Demo.vswhere) (ProcExited 0 Hosts.trailing_json)] in
  plain_windows w
  ∧ find_installation w s = (s1, Ret "C:\VS")
  ∧ select_vcvars w (Some "arm64") "C:\VS" s1 = (s1, Ret Demo.vcvarsx86_arm64)
  ∧ (_setup_env w None true s).2
    = Ret (<["PROGRAMFILES(X86)" := "C:\Program Files (x86)\"]> Demo.merged).
Proof.
  intros w s s1.
  assert (Hw : plain_windows w) by (split; [reflexivity | discriminate]).
  assert (Hf : find_installation w s = (s1, Ret "C:\VS")) by by_evaluation.
  split; [exact Hw|]. split; [exact Hf|].
  destruct (C8_arm64_fallback w None s s1 "C:\VS" Hw) as (Hsel & Hrun & _).
  - reflexivity.
  - exact Hf.
  - by_evaluation.
  - exists "". by_evaluation.
  - split; [exact Hsel|]. rewrite Hrun. by_evaluation.
Defined.

(** ** The locator's output *)

Lemma find_installation_decodes (w : world) (s : state) (root out : string) :
  py_or (environ_get w "ProgramFiles(x86)") (environ_get w "ProgramFiles") = Some root →
  is_Some (fs s !! joinpath w root "Microsoft Visual Studio/Installer/vswhere.exe") →
  let cmd := vswhere_cmd (joinpath w root "Microsoft Visual Studio/Installer/vswhere.exe") in
  (spawn w cmd (fs s)).2 = ProcExited 0 out →
  find_installation w s
  = (info ← json_loads_ w out;
     if negb (json_truthy info) then raise (Error "Could not parse vswhere.exe output")
     else first ← json_index0 info;
          p ← json_getitem first "installationPath"; pathlib_Path w p)
      (mkState (spawn w cmd (fs s)).1 (EvRun cmd (ProcExited 0 out) :: trace s)).
Proof.
  intros Hroot Hex cmd Hsp. unfold find_installation. rewrite Hroot.
  cbn [pathlib_Path2]. rewrite bind_unfold. cbn [ret].
  rewrite (bind_ret_eq _ _ _ _ _ (path_exists_eq _ s)).
  rewrite bool_decide_eq_true_2 by exact Hex. cbn [negb].
  erewrite bind_ret_eq; [reflexivity|].
  rewrite subprocess_run_eq. fold cmd. rewrite Hsp. reflexivity.
Qed.

(** An empty array, like every document whose truth value is false, is
    reported with the program's [Error]. *)
Lemma find_installation_empty (w : world) (s : state) (root out : string) (info : json) :
  py_or (environ_get w "ProgramFiles(x86)") (environ_get w "ProgramFiles") = Some root →
  is_Some (fs s !! joinpath w root "Microsoft Visual Studio/Installer/vswhere.exe") →
  let cmd := vswhere_cmd (joinpath w root "Microsoft Visual Studio/Installer/vswhere.exe") in
  (spawn w cmd (fs s)).2 = ProcExited 0 out →
  json_loads w out = Some info →
  json_truthy info = false →
  find_installation w s
  = (mkState (spawn w cmd (fs s)).1 (EvRun cmd (ProcExited 0 out) :: trace s),
     Raise (Error "Could not parse vswhere.exe output")).
Proof.
  intros Hroot Hex cmd Hsp Hj Ht.
  rewrite (find_installation_decodes w s root out Hroot Hex Hsp).
  rewrite bind_unfold. unfold json_loads_. rewrite Hj. cbn [ret]. rewrite Ht. reflexivity.
Qed.

(** Output that is not JSON leaves [find_installation] as the decoder's
    own exception. *)
Lemma find_installation_undecodable (w : world) (s : state) (root out : string) :
  py_or (environ_get w "ProgramFiles(x86)") (environ_get w "ProgramFiles") = Some root →
  is_Some (fs s !! joinpath w root "Microsoft Visual Studio/Installer/vswhere.exe") →
  let cmd := vswhere_cmd (joinpath w root "Microsoft Visual Studio/Installer/vswhere.exe") in
  (spawn w cmd (fs s)).2 = ProcExited 0 out →
  json_loads w out = None →
  find_installation w s
  = (mkState (spawn w cmd (fs s)).1 (EvRun cmd (ProcExited 0 out) :: trace s),
     Raise JSONDecodeError).
Proof.
  intros Hroot Hex cmd Hsp Hj.
  rewrite (find_installation_decodes w s root out Hroot Hex Hsp).
  rewrite bind_unfold. unfold json_loads_. rewrite Hj. reflexivity.
Qed.

Example empty_array_is_an_Error :
  _setup_env (Demo.machine Demo.amd64 "[]" (ProcExited 0 Demo.script_out)) None true
    (Demo.boot [Demo.vcvars64])
  = (mkState (Demo.disk [Demo.vcvars64])
       [EvRun (vswhere_cmd Demo.vswhere) (ProcExited 0 "[]")],
     Raise (Error "Could not parse vswhere.exe output")).
Proof. by_evaluation. Qed.

(** C4, where the code departs from it.  The locator prints nothing, which
    is not JSON: [_setup_env] ends with the decoder's [JSONDecodeError],
    which is not the program's [Error]; [main] does not catch it, so no
    [error: ...] line is printed and the run ends in a traceback.  The
    environment is not touched: the script is never run. *)
Theorem C4_undecodable_output_escapes :
  let w := Demo.machine Demo.amd64 "" (ProcExited 0 Demo.script_out) in
  let ran := [EvRun (vswhere_cmd Demo.vswhere) (ProcExited 0 "")] in
  json_loads w "" = None
  ∧ _setup_env w None true (Demo.boot [Demo.vcvars64])
    = (mkState (Demo.disk [Demo.vcvars64]) ran, Raise JSONDecodeError)
  ∧ is_Error JSONDecodeError = false
  ∧ run_program w (Demo.boot [Demo.vcvars64])
    = (mkState (Demo.disk [Demo.vcvars64]) (EvTraceback JSONDecodeError :: ran),
       Exited 1).
Proof.
  intros w ran. split; [reflexivity|]. split; [by_evaluation|].
  split; [reflexivity | by_evaluation].
Qed.

(** ** The search for a compiler *)

(** C3, where the code departs from it.  On plain Windows with [gcc] on
    the search path, the unforced call does not return the environment: the
    loop hands the builtin [compile], not the candidate name, to
    [shutil.which], which raises [TypeError] at the first candidate.  No
    locator and no script is run. *)
Theorem C3_unforced_call_raises :
  plain_windows Demo.host
  ∧ which Demo.host "gcc" = Some "C:\mingw64\bin\gcc.EXE"
  ∧ _setup_env Demo.host None false (Demo.boot [Demo.vcvars64])
    = (mkState (Demo.disk [Demo.vcvars64]) [EvWhich (PyBuiltin "compile")],
       Raise (TypeError "expected str, bytes or os.PathLike object, not builtin_function_or_method")).
Proof.
  split; [split; [reflexivity | discriminate]|].
  split; [reflexivity | by_evaluation].
Qed.

(** * Further properties of the program *)

(** ** The early exits *)

(** X1.  Off Windows, and on Windows under Cygwin ([OSTYPE] is [cygwin]),
    [_setup_env] returns the copy of the process environment whatever
    [arch] and [force] are, and does nothing else: no file, no child
    process, no entry in the trace. *)
Theorem X1_unmodified_elsewhere (w : world) (arch : option string) (force : bool)
    (s : state) :
  sys_platform w ≠ "win32" ∨ environ_get w "OSTYPE" = Some "cygwin" →
  _setup_env w arch force s = (s, Ret (os_environ w)).
Proof.
  intros H. apply setup_env_elsewhere. intros [Hp Hc]. destruct H as [H|H].
  - exact (H Hp).
  - exact (Hc H).
Qed.

Lemma X1_witness :
  environ_get Hosts.cygwin "OSTYPE" = Some "cygwin"
  ∧ _setup_env Hosts.cygwin None false (Demo.boot [Demo.vcvars64])
    = (Demo.boot [Demo.vcvars64], Ret (os_environ Hosts.cygwin)).
Proof.
  assert (H : environ_get Hosts.cygwin "OSTYPE" = Some "cygwin") by by_evaluation.
  split; [exact H|].
  exact (X1_unmodified_elsewhere Hosts.cygwin None false (Demo.boot [Demo.vcvars64])
           (or_intror H)).
Defined.

(** ** The architecture detector *)

(** X2.  On Windows, when [IsWow64Process2] succeeds with one of the four
    machine codes of the table, the detector returns the tag of that code
    (0x8664 amd64, 0x014C x86, 0xAA64 arm64, 0x01C4 arm) and does not look
    at the environment variables. *)
Theorem X2_api_answer_wins (w : world) (s : state) (native_arch : Z) (tag : string) :
  sys_platform w = "win32" →
  IsWow64Process2 w = Wow64Returns true native_arch →
  machine_arch native_arch = Some tag →
  (∀ e, _windows_detect_native_arch (with_environ e w) s = (s, Ret (Some tag)))
  ∧ ((native_arch = 0x8664 ∧ tag = "amd64") ∨ (native_arch = 0x014C ∧ tag = "x86")
     ∨ (native_arch = 0xAA64 ∧ tag = "arm64") ∨ (native_arch = 0x01C4 ∧ tag = "arm"))%Z.
Proof.
  intros Hp Hq Hm. split.
  - intros e. unfold _windows_detect_native_arch.
    change (sys_platform (with_environ e w)) with (sys_platform w). rewrite Hp.
    change (negb (String.eqb "win32" "win32")) with false. cbv iota.
    assert (Hquery : query_native_arch (with_environ e w) s = (s, Ret (Some tag))).
    { unfold query_native_arch, try_except.
      change (IsWow64Process2 (with_environ e w)) with (IsWow64Process2 w).
      rewrite Hq. cbn. rewrite Hm. reflexivity. }
    rewrite (bind_ret_eq _ _ _ _ _ Hquery). reflexivity.
  - revert Hm. unfold machine_arch.
    destruct (Z.eqb_spec native_arch 0x8664) as [->|_];
      [intros [= <-]; left; split; reflexivity|].
    destruct (Z.eqb_spec native_arch 0x014C) as [->|_];
      [intros [= <-]; right; left; split; reflexivity|].
    destruct (Z.eqb_spec native_arch 0xAA64) as [->|_];
      [intros [= <-]; right; right; left; split; reflexivity|].
    destruct (Z.eqb_spec native_arch 0x01C4) as [->|_];
      [intros [= <-]; right; right; right; split; reflexivity|].
    discriminate.
Qed.

Lemma X2_witness :
  let w := with_wow64 (Wow64Returns true 0xAA64) Demo.host in
  os_environ w !! "PROCESSOR_ARCHITECTURE" = Some "AMD64"
  ∧ _windows_detect_native_arch w (Demo.boot []) = (Demo.boot [], Ret (Some "arm64")).
Proof.
  intros w. split; [by_evaluation|].
  exact (proj1 (X2_api_answer_wins w (Demo.boot []) 0xAA64 "arm64"
                  eq_refl eq_refl eq_refl) (os_environ w)).
Defined.

(** X3.  The detector never changes the state and never replaces the
    process; off Windows it returns [None]; and an exception that leaves it
    is either the program's [Error] "Unable to detect native OS
    architecture" or an exception of the API query that is neither an
    [OSError] nor an [AttributeError]. *)
Theorem X3_detector_outcomes (w : world) (s s' : state) (r : result (option string)) :
  _windows_detect_native_arch w s = (s', r) →
  s' = s
  ∧ r ≠ Replaced
  ∧ (sys_platform w ≠ "win32" → r = Ret None)
  ∧ (∀ e, r = Raise e →
       e = Error "Unable to detect native OS architecture"
       ∨ (IsWow64Process2 w = Wow64Raises e ∧ is_OSError_or_AttributeError e = false)).
Proof.
  intros H. split; [exact (stateless_inv _ _ _ _ (stateless_detect w) H)|].
  revert H. unfold _windows_detect_native_arch.
  destruct (String.eqb_spec (sys_platform w) "win32") as [Hp|Hp]; cbn [negb].
  2:{ intros [= _ <-]. repeat split; try discriminate. }
  rewrite bind_unfold. unfold query_native_arch, try_except.
  assert (Hrest : ∀ s0 : state,
    (let arch := Str.lower (default "" (environ_get w "PROCESSOR_ARCHITEW6432")) in
     if negb (Str.truthy arch)
     then arch0 ← try_except
                    (v ← environ_getitem w "PROCESSOR_ARCHITECTURE"; ret (Str.lower v))
                    is_KeyError
                    (λ _, raise (Error "Unable to detect native OS architecture"));
          ret (Some arch0)
     else ret (Some arch)) s0 = (s', r) →
    r ≠ Replaced
    ∧ (sys_platform w ≠ "win32" → r = Ret None)
    ∧ (∀ e, r = Raise e →
         e = Error "Unable to detect native OS architecture"
         ∨ (IsWow64Process2 w = Wow64Raises e ∧ is_OSError_or_AttributeError e = false))).
  { intros s0. cbn zeta. destruct (negb _).
    - rewrite bind_unfold. unfold try_except. rewrite bind_unfold. unfold environ_getitem.
      destruct (environ_get w "PROCESSOR_ARCHITECTURE"); cbn; intros [= _ <-].
      + repeat split; [discriminate | contradiction | discriminate].
      + repeat split; [discriminate | contradiction |].
        intros e [= <-]. left. reflexivity.
    - intros [= _ <-]. repeat split; [discriminate | contradiction | discriminate]. }
  destruct (IsWow64Process2 w) as [e|ok v] eqn:Hq; cbn.
  - destruct (is_OSError_or_AttributeError e) eqn:He; cbn.
    + apply Hrest.
    + intros [= _ <-]. repeat split; [discriminate | contradiction |].
      intros e' [= <-]. right. split; [reflexivity | exact He].
  - destruct ok; cbn; [|apply Hrest].
    destruct (machine_arch v); [|apply Hrest].
    intros [= _ <-]. repeat split; [discriminate | contradiction | discriminate].
Qed.

Lemma X3_witness :
  let w := with_wow64 (Wow64Raises (TypeError "byref() argument must be a ctypes instance"))
             Demo.host in
  _windows_detect_native_arch w (Demo.boot [])
  = (Demo.boot [], Raise (TypeError "byref() argument must be a ctypes instance"))
  ∧ IsWow64Process2 w = Wow64Raises (TypeError "byref() argument must be a ctypes instance").
Proof.
  intros w.
  assert (H : _windows_detect_native_arch w (Demo.boot [])
              = (Demo.boot [], Raise (TypeError "byref() argument must be a ctypes instance")))
    by reflexivity.
  split; [exact H|].
  destruct (proj2 (proj2 (proj2 (X3_detector_outcomes w _ _ _ H))) _ eq_refl) as [E|[E _]].
  - discriminate E.
  - exact E.
Defined.

(** ** The locator *)

Lemma setup_env_discovers (w : world) (arch a : option string) (s : state) :
  plain_windows w →
  target_arch w arch s = (s, Ret a) →
  _setup_env w arch true s
  = (installation_path ← find_installation w;
     vcvars ← select_vcvars w a installation_path;
     out ← run_script w vcvars (uuid4 w);
     scan_output (uuid4 w) out (os_environ w)) s.
Proof.
  intros Hw Ha. rewrite setup_env_forced by exact Hw. unfold discover.
  rewrite (bind_ret_eq _ _ _ _ _ Ha). reflexivity.
Qed.

Lemma find_installation_missing (w : world) (s : state) (root : string) :
  program_files_root w = Some root →
  fs s !! vswhere_under w root = None →
  find_installation w s = (s, Raise (Error ("Could not find " +:+ vswhere_under w root))).
Proof.
  unfold program_files_root, vswhere_under. intros Hroot Hex.
  unfold find_installation. rewrite Hroot.
  cbn [pathlib_Path2]. rewrite bind_unfold. cbn [ret].
  rewrite (bind_ret_eq _ _ _ _ _ (path_exists_eq _ s)). rewrite Hex.
  reflexivity.
Qed.

(** X5.  On plain Windows, with the architecture known, when no file exists
    at [Microsoft Visual Studio\Installer\vswhere.exe] under the
    program-files directory, the forced call raises the program's [Error]
    "Could not find <that path>" and has started nothing: the state is the
    one at entry. *)
Theorem X5_locator_missing (w : world) (arch a : option string) (s : state)
    (root : string) :
  plain_windows w →
  target_arch w arch s = (s, Ret a) →
  program_files_root w = Some root →
  fs s !! vswhere_under w root = None →
  _setup_env w arch true s
  = (s, Raise (Error ("Could not find " +:+ vswhere_under w root))).
Proof.
  intros Hw Ha Hroot Hex. rewrite (setup_env_discovers _ _ _ _ Hw Ha).
  apply bind_raise_eq, find_installation_missing; assumption.
Qed.

Lemma X5_witness :
  let s := mkState ∅ [] in
  fs s !! vswhere_under Demo.host Demo.program_files = None
  ∧ _setup_env Demo.host None true s
    = (s, Raise (Error ("Could not find " +:+ Demo.vswhere))).
Proof.
  intros s. split; [reflexivity|].
  refine (X5_locator_missing Demo.host None (Some "amd64") s Demo.program_files _ _ _ _).
  - split; [reflexivity | discriminate].
  - reflexivity.
  - by_evaluation.
  - reflexivity.
Defined.

Example locator_found_under_trailing_separator :
  program_files_root Hosts.trailing = Some "C:\Program Files (x86)\"
  ∧ vswhere_under Hosts.trailing "C:\Program Files (x86)\" = Demo.vswhere
  ∧ (_setup_env Hosts.trailing None true (Demo.boot [Demo.vcvarsx86_arm64])).2
    = Ret (<["PROGRAMFILES(X86)" := "C:\Program Files (x86)\"]> Demo.merged).
Proof. split; [by_evaluation|]. split; by_evaluation. Qed.

(** X6.  On plain Windows, with the architecture known, when neither
    [ProgramFiles(x86)] nor [ProgramFiles] holds a non-empty value and the
    second is unset, the path of the locator cannot be built: the forced
    call ends with a [TypeError], which is not the program's [Error], and
    has started nothing. *)
Theorem X6_no_program_files (w : world) (arch a : option string) (s : state) :
  plain_windows w →
  target_arch w arch s = (s, Ret a) →
  program_files_root w = None →
  ∃ msg, _setup_env w arch true s = (s, Raise (TypeError msg)).
Proof.
  intros Hw Ha Hroot. rewrite (setup_env_discovers _ _ _ _ Hw Ha).
  eexists. apply bind_raise_eq. unfold find_installation.
  unfold program_files_root in Hroot. rewrite Hroot. reflexivity.
Qed.

Lemma X6_witness :
  program_files_root Hosts.bare = None
  ∧ ∃ msg, _setup_env Hosts.bare None true (Demo.boot [Demo.vcvars64])
           = (Demo.boot [Demo.vcvars64], Raise (TypeError msg)).
Proof.
  assert (H : program_files_root Hosts.bare = None) by by_evaluation.
  split; [exact H|].
  refine (X6_no_program_files Hosts.bare None (Some "amd64") _ _ _ H).
  - split; [reflexivity | by_evaluation || discriminate].
  - reflexivity.
Defined.

(** X7.  On plain Windows, with the architecture known and the locator in
    place, a locator that exits with a non-zero status ends the forced call
    with [CalledProcessError] carrying that status and the command line;
    the exception is not the program's [Error], and after the locator
    nothing was started and no temporary file was written. *)
Theorem X7_locator_failure_propagates (w : world) (arch a : option string) (s : state)
    (root out : string) (returncode : Z) :
  plain_windows w →
  target_arch w arch s = (s, Ret a) →
  program_files_root w = Some root →
  is_Some (fs s !! vswhere_under w root) →
  (spawn w (vswhere_cmd (vswhere_under w root)) (fs s)).2 = ProcExited returncode out →
  returncode ≠ 0%Z →
  _setup_env w arch true s
  = (mkState (spawn w (vswhere_cmd (vswhere_under w root)) (fs s)).1
       (EvRun (vswhere_cmd (vswhere_under w root)) (ProcExited returncode out) :: trace s),
     Raise (CalledProcessError returncode (vswhere_cmd (vswhere_under w root)))).
Proof.
  intros Hw Ha Hroot Hex Hsp Hrc. rewrite (setup_env_discovers _ _ _ _ Hw Ha).
  apply bind_raise_eq. unfold find_installation.
  unfold program_files_root in Hroot. rewrite Hroot.
  cbn [pathlib_Path2]. rewrite bind_unfold. cbn [ret].
  rewrite (bind_ret_eq _ _ _ _ _ (path_exists_eq _ s)).
  rewrite bool_decide_eq_true_2 by exact Hex. cbn [negb].
  apply bind_raise_eq. rewrite subprocess_run_eq.
  unfold vswhere_under in Hsp. rewrite Hsp.
  destruct (Z.eqb_spec returncode 0) as [E|_]; [contradiction|]. reflexivity.
Qed.

Lemma X7_witness :
  (spawn Hosts.locator_fails (vswhere_cmd Demo.vswhere) (Demo.disk [Demo.vcvars64])).2
  = ProcExited 87 ""
  ∧ _setup_env Hosts.locator_fails None true (Demo.boot [Demo.vcvars64])
    = (mkState (Demo.disk [Demo.vcvars64])
         [EvRun (vswhere_cmd Demo.vswhere) (ProcExited 87 "")],
       Raise (CalledProcessError 87 (vswhere_cmd Demo.vswhere))).
Proof.
  split; [reflexivity|].
  refine (X7_locator_failure_propagates Hosts.locator_fails None (Some "amd64")
            (Demo.boot [Demo.vcvars64]) Demo.program_files "" 87 _ _ _ _ _ _).
  - split; [reflexivity | discriminate].
  - reflexivity.
  - by_evaluation.
  - exists "". by_evaluation.
  - reflexivity.
  - discriminate.
Defined.

(** X8.  When the locator's output decodes to an array whose first record
    is an object without a member [installationPath], the forced call ends
    with [KeyError] for that name, not with the program's [Error]; the
    script is not run. *)
Theorem X8_missing_installation_path (w : world) (arch a : option string) (s : state)
    (root out : string) (members : list (string * json)) (others : list json) :
  plain_windows w →
  target_arch w arch s = (s, Ret a) →
  program_files_root w = Some root →
  is_Some (fs s !! vswhere_under w root) →
  (spawn w (vswhere_cmd (vswhere_under w root)) (fs s)).2 = ProcExited 0 out →
  json_loads w out = Some (JArr (JObj members :: others)) →
  obj_lookup "installationPath" members = None →
  _setup_env w arch true s
  = (mkState (spawn w (vswhere_cmd (vswhere_under w root)) (fs s)).1
       (EvRun (vswhere_cmd (vswhere_under w root)) (ProcExited 0 out) :: trace s),
     Raise (KeyError "installationPath")).
Proof.
  intros Hw Ha Hroot Hex Hsp Hj Hm. rewrite (setup_env_discovers _ _ _ _ Hw Ha).
  apply bind_raise_eq.
  rewrite (find_installation_decodes w s root out Hroot Hex Hsp).
  rewrite bind_unfold. unfold json_loads_. rewrite Hj. cbn [ret json_truthy negb].
  rewrite bind_unfold. cbn [json_index0 ret]. rewrite bind_unfold.
  cbn [json_getitem]. rewrite Hm. reflexivity.
Qed.

Lemma X8_witness :
  json_loads Hosts.nameless Hosts.nameless_json
  = Some (JArr [JObj [("instanceId", JStr "5f2c1a7e")]])
  ∧ _setup_env Hosts.nameless None true (Demo.boot [Demo.vcvars64])
    = (mkState (Demo.disk [Demo.vcvars64])
         [EvRun (vswhere_cmd Demo.vswhere) (ProcExited 0 Hosts.nameless_json)],
       Raise (KeyError "installationPath")).
Proof.
  assert (H : json_loads Hosts.nameless Hosts.nameless_json
              = Some (JArr [JObj [("instanceId", JStr "5f2c1a7e")]])) by by_evaluation.
  split; [exact H|].
  refine (X8_missing_installation_path Hosts.nameless None (Some "amd64")
            (Demo.boot [Demo.vcvars64]) Demo.program_files Hosts.nameless_json
            [("instanceId", JStr "5f2c1a7e")] [] _ _ _ _ _ H _).
  - split; [reflexivity | discriminate].
  - reflexivity.
  - by_evaluation.
  - exists "". by_evaluation.
  - by_evaluation.
  - reflexivity.
Defined.

(** ** The choice of the setup script *)

(** X9.  [select_vcvars] looks at two candidates: for the architecture
    [arm64] (that exact string) [vcvarsarm64.bat] then
    [vcvarsx86_arm64.bat], for every other architecture [vcvars64.bat] then
    [vcvarsx86_amd64.bat].  It returns the first if it exists, otherwise the
    second if it exists, otherwise raises the program's [Error] "Could not
    find vcvars.bat"; the state is left as it is. *)
Theorem X9_select_vcvars (w : world) (arch : option string) (installation_path : string)
    (s : state) :
  select_vcvars w arch installation_path s =
  (s,
   if bool_decide (is_Some (fs s !! (vcvars_candidates w arch installation_path).1))
   then Ret (vcvars_candidates w arch installation_path).1
   else if bool_decide (is_Some (fs s !! (vcvars_candidates w arch installation_path).2))
        then Ret (vcvars_candidates w arch installation_path).2
        else Raise (Error "Could not find vcvars.bat")).
Proof.
  assert (Hboth : ∀ p q : string,
    (vcvars ← (ex ← path_exists p; if negb ex then ret q else ret p);
     ex ← path_exists vcvars;
     if negb ex then raise (Error "Could not find vcvars.bat") else ret vcvars) s
    = (s, if bool_decide (is_Some (fs s !! p)) then Ret p
          else if bool_decide (is_Some (fs s !! q)) then Ret q
               else Raise (Error "Could not find vcvars.bat"))).
  { intros p q. rewrite bind_unfold, bind_unfold, path_exists_eq.
    destruct (bool_decide (is_Some (fs s !! p))) eqn:E1; cbn [negb ret];
      rewrite bind_unfold, path_exists_eq.
    - rewrite E1. reflexivity.
    - destruct (bool_decide (is_Some (fs s !! q))); reflexivity. }
  unfold select_vcvars, vcvars_candidates.
  destruct (bool_decide (arch = Some "arm64")); cbn zeta; cbn [fst snd]; apply Hboth.
Qed.

Example select_vcvars_under_a_drive_root :
  select_vcvars Demo.host None "C:\"
    (mkState (<["C:\VC\Auxiliary\Build\vcvars64.bat" := ""]> ∅) [])
  = (mkState (<["C:\VC\Auxiliary\Build\vcvars64.bat" := ""]> ∅) [],
     Ret "C:\VC\Auxiliary\Build\vcvars64.bat").
Proof. by_evaluation. Qed.

Example select_vcvars_is_case_sensitive :
  select_vcvars Demo.host (Some "ARM64") "C:\VS" (Demo.boot [Demo.vcvarsarm64])
  = (Demo.boot [Demo.vcvarsarm64], Raise (Error "Could not find vcvars.bat")).
Proof. by_evaluation. Qed.

(** ** The scan, on the text of the output *)

Lemma splitlines_from_line (l cur rest : string) :
  has_linebreak l = false →
  Str.splitlines_from cur (l +:+ String Str.LF rest)
  = String.rev_app cur l :: Str.splitlines_from "" rest.
Proof.
  revert cur. induction l as [|a l IH]; intros cur H.
  - rewrite append_nil_l. cbn [Str.splitlines_from].
    change (Str.is_linebreak Str.LF) with true. cbv iota.
    change (Ascii.eqb Str.LF Str.CR) with false. cbn [andb].
    destruct rest; reflexivity.
  - cbn [has_linebreak] in H. apply orb_false_iff in H as [Ha Hl].
    rewrite append_cons. cbn [Str.splitlines_from]. rewrite Ha.
    rewrite (IH _ Hl). reflexivity.
Qed.

Lemma unlines_cons (l : string) (ls : list string) :
  unlines (l :: ls) = l +:+ String Str.LF (unlines ls).
Proof. reflexivity. Qed.

(** Lines written one per line are read back by [str.splitlines()]. *)
Lemma splitlines_unlines (ls : list string) :
  Forall (λ l, has_linebreak l = false) ls →
  Str.splitlines (unlines ls) = ls.
Proof.
  unfold Str.splitlines. induction 1 as [|l ls Hl _ IH]; [reflexivity|].
  rewrite unlines_cons, (splitlines_from_line _ _ _ Hl), IH. reflexivity.
Qed.

(** X10.  When the setup script's captured output is the text of the lines
    [pre], the separator and [post], each ended by a line feed and free of
    line boundaries, and the separator is not among [pre], a successful
    call returns the process environment with the lines of [post] merged
    in order, and nothing of [pre]. *)
Theorem X10_scan_of_text (w : world) (arch : option string) (force : bool)
    (s s' : state) (env' : gmap string string) (tmp : string) (pre post : list string) :
  trace s = [] →
  _setup_env w arch force s = (s', Ret env') →
  head (trace s')
  = Some (EvRun [tmp] (ProcExited 0 (unlines (pre ++ uuid4 w :: post)))) →
  Forall (λ l, has_linebreak l = false) (pre ++ uuid4 w :: post) →
  uuid4 w ∉ pre →
  env' = foldl merged_line (os_environ w) post
  ∧ merge_lines (os_environ w) post s' = (s', Ret env').
Proof.
  intros Hs Hrun Hhead Hlb Hpre.
  pose proof (setup_env_scanned _ _ _ _ _ _ _ _ Hs Hrun Hhead) as Henv.
  rewrite (splitlines_unlines _ Hlb), (skip_separator_first _ _ _ Hpre) in Henv.
  split; [exact Henv|]. rewrite merge_lines_total, Henv. reflexivity.
Qed.

Lemma X10_witness :
  Demo.script_out
  = unlines (["[vcvarsall.bat] Environment initialized"; "X=0"] ++ uuid4 Demo.host ::
             ["FOO=bar"; ""; "no assignment here"; "X=1"; "PATH=C:\VS\bin"; "X=2";
              "LIB=C:\VS\lib"])
  ∧ Demo.merged
    = foldl merged_line (os_environ Demo.host)
        ["FOO=bar"; ""; "no assignment here"; "X=1"; "PATH=C:\VS\bin"; "X=2";
         "LIB=C:\VS\lib"].
Proof.
  split; [reflexivity|].
  refine (proj1 (X10_scan_of_text Demo.host None true (Demo.boot [Demo.vcvars64])
            (Demo.after Demo.host [Demo.vcvars64]) Demo.merged Demo.tmpname
            ["[vcvarsall.bat] Environment initialized"; "X=0"]
            ["FOO=bar"; ""; "no assignment here"; "X=1"; "PATH=C:\VS\bin"; "X=2";
             "LIB=C:\VS\lib"] _ _ _ _ _)).
  - reflexivity.
  - by_evaluation.
  - by_evaluation.
  - repeat constructor.
  - intros H. apply elem_of_cons in H as [H|H]; [discriminate H|].
    apply elem_of_cons in H as [H|H]; [discriminate H|]. inversion H.
Defined.

(** X11.  When no line of the setup script's captured output equals the
    separator, the first loop uses up every line and nothing is merged: a
    successful call returns the process environment as it was at entry. *)
Theorem X11_separator_absent (w : world) (arch : option string) (force : bool)
    (s s' : state) (env' : gmap string string) (tmp out : string) :
  trace s = [] →
  _setup_env w arch force s = (s', Ret env') →
  head (trace s') = Some (EvRun [tmp] (ProcExited 0 out)) →
  uuid4 w ∉ Str.splitlines out →
  env' = os_environ w.
Proof.
  intros Hs Hrun Hhead Habsent.
  rewrite (setup_env_scanned _ _ _ _ _ _ _ _ Hs Hrun Hhead).
  rewrite (skip_separator_absent _ _ Habsent). reflexivity.
Qed.

Lemma X11_witness :
  Str.splitlines Hosts.silent_out = ["FOO=bar"; "X=1"]
  ∧ _setup_env Hosts.silent None true (Demo.boot [Demo.vcvars64])
    = (Demo.after Hosts.silent [Demo.vcvars64], Ret Demo.environ)
  ∧ Demo.environ = os_environ Hosts.silent.
Proof.
  assert (H : _setup_env Hosts.silent None true (Demo.boot [Demo.vcvars64])
              = (Demo.after Hosts.silent [Demo.vcvars64], Ret Demo.environ))
    by by_evaluation.
  split; [reflexivity|]. split; [exact H|].
  refine (X11_separator_absent Hosts.silent None true (Demo.boot [Demo.vcvars64])
            (Demo.after Hosts.silent [Demo.vcvars64]) Demo.environ Demo.tmpname
            Hosts.silent_out _ H _ _).
  - reflexivity.
  - by_evaluation.
  - change (Str.splitlines Hosts.silent_out) with ["FOO=bar"; "X=1"].
    intros Hin. apply elem_of_cons in Hin as [Hin|Hin]; [discriminate Hin|].
    apply elem_of_cons in Hin as [Hin|Hin]; [discriminate Hin|]. inversion Hin.
Defined.

(** X12.  A variable the setup script does not assign keeps its value: if
    no line after the separator is [k=...], then [k] has in the returned
    environment exactly the value (or the absence) it had in the process
    environment. *)
Theorem X12_unassigned_keys_kept (w : world) (arch : option string) (force : bool)
    (s s' : state) (env' : gmap string string) (tmp out : string)
    (pre post : list string) (k : string) :
  trace s = [] →
  _setup_env w arch force s = (s', Ret env') →
  head (trace s') = Some (EvRun [tmp] (ProcExited 0 out)) →
  Str.splitlines out = pre ++ uuid4 w :: post →
  uuid4 w ∉ pre →
  (∀ line v, line ∈ post → line ≠ assignment k v) →
  env' !! k = os_environ w !! k.
Proof.
  intros Hs Hrun Hhead Hout Hpre Hk.
  rewrite (setup_env_scanned _ _ _ _ _ _ _ _ Hs Hrun Hhead).
  rewrite Hout, (skip_separator_first _ _ _ Hpre).
  apply foldl_merged_lookup_other, Hk.
Qed.

Lemma X12_witness :
  _setup_env Demo.host None true (Demo.boot [Demo.vcvars64])
  = (Demo.after Demo.host [Demo.vcvars64], Ret Demo.merged)
  ∧ Demo.merged !! "PROCESSOR_ARCHITECTURE"
    = os_environ Demo.host !! "PROCESSOR_ARCHITECTURE".
Proof.
  assert (H : _setup_env Demo.host None true (Demo.boot [Demo.vcvars64])
              = (Demo.after Demo.host [Demo.vcvars64], Ret Demo.merged))
    by by_evaluation.
  split; [exact H|].
  refine (X12_unassigned_keys_kept Demo.host None true (Demo.boot [Demo.vcvars64])
            (Demo.after Demo.host [Demo.vcvars64]) Demo.merged Demo.tmpname
            Demo.script_out
            ["[vcvarsall.bat] Environment initialized"; "X=0"]
            ["FOO=bar"; ""; "no assignment here"; "X=1"; "PATH=C:\VS\bin"; "X=2";
             "LIB=C:\VS\lib"] "PROCESSOR_ARCHITECTURE" _ H _ _ _ _).
  - reflexivity.
  - by_evaluation.
  - by_evaluation.
  - intros Hin. apply elem_of_cons in Hin as [Hin|Hin]; [discriminate Hin|].
    apply elem_of_cons in Hin as [Hin|Hin]; [discriminate Hin|]. inversion Hin.
  - intros line v Hin E. subst line.
    repeat (apply elem_of_cons in Hin as [Hin|Hin]; [discriminate Hin|]).
    inversion Hin.
Defined.

Lemma merged_line_lookup_Some (env : gmap string string) (line k v : string) :
  merged_line env line !! k = Some v →
  env !! k = Some v ∨ line = assignment k v.
Proof.
  unfold merged_line. destruct line as [|c r]; [left; assumption|].
  destruct (Str.cut "=" (String c r)) as [[k' v']|] eqn:E; [|left; assumption].
  apply cut_some_inv in E as [E _]. rewrite lookup_insert. case_decide as Hk.
  - intros [= <-]. subst k'. right. exact E.
  - left. assumption.
Qed.

Lemma foldl_merged_lookup_Some (lines : list string) (env : gmap string string)
    (k v : string) :
  foldl merged_line env lines !! k = Some v →
  env !! k = Some v ∨ assignment k v ∈ lines.
Proof.
  revert env. induction lines as [|line rest IH]; intros env; cbn [foldl].
  - left. assumption.
  - intros H. apply IH in H as [H|H].
    + apply merged_line_lookup_Some in H as [H|H]; [left; exact H|].
      right. subst line. left.
    + right. right. exact H.
Qed.

(** X13.  Nothing enters the returned environment from elsewhere: every
    binding [k ↦ v] of it is a binding of the process environment at entry
    or is written, as the line [k=v], after the separator in the setup
    script's output.  In particular the lines before the separator add
    nothing. *)
Theorem X13_bindings_have_a_source (w : world) (arch : option string) (force : bool)
    (s s' : state) (env' : gmap string string) (tmp out : string)
    (pre post : list string) (k v : string) :
  trace s = [] →
  _setup_env w arch force s = (s', Ret env') →
  head (trace s') = Some (EvRun [tmp] (ProcExited 0 out)) →
  Str.splitlines out = pre ++ uuid4 w :: post →
  uuid4 w ∉ pre →
  env' !! k = Some v →
  os_environ w !! k = Some v ∨ assignment k v ∈ post.
Proof.
  intros Hs Hrun Hhead Hout Hpre Hk.
  rewrite (setup_env_scanned _ _ _ _ _ _ _ _ Hs Hrun Hhead) in Hk.
  rewrite Hout, (skip_separator_first _ _ _ Hpre) in Hk.
  apply foldl_merged_lookup_Some, Hk.
Qed.

Lemma X13_witness :
  _setup_env Demo.host None true (Demo.boot [Demo.vcvars64])
  = (Demo.after Demo.host [Demo.vcvars64], Ret Demo.merged)
  ∧ Demo.merged !! "FOO" = Some "bar"
  ∧ (os_environ Demo.host !! "FOO" = Some "bar"
     ∨ assignment "FOO" "bar"
       ∈ ["FOO=bar"; ""; "no assignment here"; "X=1"; "PATH=C:\VS\bin"; "X=2";
          "LIB=C:\VS\lib"]).
Proof.
  assert (H : _setup_env Demo.host None true (Demo.boot [Demo.vcvars64])
              = (Demo.after Demo.host [Demo.vcvars64], Ret Demo.merged))
    by by_evaluation.
  assert (Hk : Demo.merged !! "FOO" = Some "bar") by by_evaluation.
  split; [exact H|]. split; [exact Hk|].
  refine (X13_bindings_have_a_source Demo.host None true (Demo.boot [Demo.vcvars64])
            (Demo.after Demo.host [Demo.vcvars64]) Demo.merged Demo.tmpname
            Demo.script_out
            ["[vcvarsall.bat] Environment initialized"; "X=0"] _ "FOO" "bar"
            _ H _ _ _ Hk).
  - reflexivity.
  - by_evaluation.
  - by_evaluation.
  - intros Hin. apply elem_of_cons in Hin as [Hin|Hin]; [discriminate Hin|].
    apply elem_of_cons in Hin as [Hin|Hin]; [discriminate Hin|]. inversion Hin.
Defined.

(** ** The launcher *)

Lemma main_after_setup (w : world) (s s1 : state) (env : gmap string string) :
  _setup_env w None true s = (s1, Ret env) →
  main w s
  = (file ← index1 (sys_argv w); os_execvpe w file (drop 1 (sys_argv w)) env) s1.
Proof.
  intros H. unfold main. rewrite bind_unfold. unfold try_except. rewrite H. reflexivity.
Qed.

(** X14.  When [_setup_env] returns an environment and the program was
    given a command, [main] calls [os.execvpe] with that command, with the
    command and its arguments as argument vector, and with the returned
    environment.  If the call succeeds the process image is replaced.  If
    it raises (an [OSError] when the command cannot be executed, a
    [ValueError] when it refuses the environment, as for the empty variable
    name that a line [=v] of the script output puts there) nothing catches
    the exception: the program ends with its traceback and status 1. *)
Theorem X14_launch (w : world) (s s1 : state) (env : gmap string string)
    (prog file : string) (args : list string) :
  _setup_env w None true s = (s1, Ret env) →
  sys_argv w = prog :: file :: args →
  (execvpe w file (file :: args) env = None →
   run_program w s
   = (mkState (fs s1) (EvExec file (file :: args) env :: trace s1), ImageReplaced))
  ∧ (∀ e, execvpe w file (file :: args) env = Some e →
     run_program w s
     = (mkState (fs s1)
          (EvTraceback e :: EvExec file (file :: args) env :: trace s1),
        Exited 1)).
Proof.
  intros H Hargv. unfold run_program. rewrite (main_after_setup _ _ _ _ H), Hargv.
  cbn [index1 lookup list_lookup drop]. rewrite bind_unfold. cbn [ret].
  unfold os_execvpe. rewrite bind_unfold. cbn [emit].
  split.
  - intros ->. reflexivity.
  - intros e ->. reflexivity.
Qed.

Lemma X14_witness :
  _setup_env Demo.host None true (Demo.boot [Demo.vcvars64])
  = (Demo.after Demo.host [Demo.vcvars64], Ret Demo.merged)
  ∧ run_program Demo.host (Demo.boot [Demo.vcvars64])
    = (mkState (fs (Demo.after Demo.host [Demo.vcvars64]))
         (EvExec "cl" ["cl"; "/c"; "hello.c"] Demo.merged
            :: trace (Demo.after Demo.host [Demo.vcvars64])),
       ImageReplaced)
  ∧ run_program Hosts.no_such_command (Demo.boot [Demo.vcvars64])
    = (mkState (fs (Demo.after Demo.host [Demo.vcvars64]))
         (EvTraceback (OSError "No such file or directory")
            :: EvExec "cl" ["cl"; "/c"; "hello.c"] Demo.merged
            :: trace (Demo.after Demo.host [Demo.vcvars64])),
       Exited 1)
  ∧ (let env := <["" := "v"]> (<["FOO" := "bar"]> Demo.environ) in
     _setup_env Hosts.nameless_variable None true (Demo.boot [Demo.vcvars64])
     = (Demo.after Hosts.nameless_variable [Demo.vcvars64], Ret env)
     ∧ run_program Hosts.nameless_variable (Demo.boot [Demo.vcvars64])
       = (mkState (fs (Demo.after Hosts.nameless_variable [Demo.vcvars64]))
            (EvTraceback (ValueError "illegal environment variable name")
               :: EvExec "cl" ["cl"; "/c"; "hello.c"] env
               :: trace (Demo.after Hosts.nameless_variable [Demo.vcvars64])),
          Exited 1)).
Proof.
  assert (H : _setup_env Demo.host None true (Demo.boot [Demo.vcvars64])
              = (Demo.after Demo.host [Demo.vcvars64], Ret Demo.merged))
    by by_evaluation.
  assert (H' : _setup_env Hosts.nameless_variable None true (Demo.boot [Demo.vcvars64])
               = (Demo.after Hosts.nameless_variable [Demo.vcvars64],
                  Ret (<["" := "v"]> (<["FOO" := "bar"]> Demo.environ))))
    by by_evaluation.
  split; [exact H|]. split; [|split].
  - exact (proj1 (X14_launch Demo.host _ _ _ "vsenv" "cl" ["/c"; "hello.c"] H eq_refl)
             eq_refl).
  - exact (proj2 (X14_launch Hosts.no_such_command _ _ _ "vsenv" "cl" ["/c"; "hello.c"]
                    H eq_refl) (OSError "No such file or directory") eq_refl).
  - split; [exact H'|].
    refine (proj2 (X14_launch Hosts.nameless_variable _ _ _ "vsenv" "cl" ["/c"; "hello.c"]
                     H' eq_refl) (ValueError "illegal environment variable name") _).
    by_evaluation.
Defined.

(** X15.  Run without a command, the program still carries out the whole
    of [_setup_env] first; only then does [sys.argv[1]] raise [IndexError],
    which ends the program with a traceback and status 1.  No [exec] is
    attempted and no [error:] line is printed. *)
Theorem X15_no_command (w : world) (s s1 : state) (env : gmap string string) :
  _setup_env w None true s = (s1, Ret env) →
  (length (sys_argv w) < 2)%nat →
  run_program w s
  = (mkState (fs s1) (EvTraceback (IndexError "list index out of range") :: trace s1),
     Exited 1).
Proof.
  intros H Hlen. unfold run_program. rewrite (main_after_setup _ _ _ _ H).
  rewrite bind_unfold. unfold index1.
  rewrite (proj2 (lookup_ge_None (sys_argv w) 1)) by lia. reflexivity.
Qed.

Lemma X15_witness :
  sys_argv Hosts.no_command = ["vsenv"]
  ∧ run_program Hosts.no_command (Demo.boot [Demo.vcvars64])
    = (mkState (Demo.disk [Demo.vcvars64])
         [EvTraceback (IndexError "list index out of range");
          EvRun [Demo.tmpname] (ProcExited 0 Demo.script_out);
          EvTempfile Demo.tmpname;
          EvRun (vswhere_cmd Demo.vswhere) (ProcExited 0 Demo.locator_json)],
       Exited 1).
Proof.
  split; [reflexivity|].
  assert (H : _setup_env Hosts.no_command None true (Demo.boot [Demo.vcvars64])
              = (Demo.after Demo.host [Demo.vcvars64], Ret Demo.merged))
    by by_evaluation.
  rewrite (X15_no_command Hosts.no_command _ _ _ H ltac:(cbn; lia)).
  by_evaluation.
Defined.

(** X16.  [main] catches the program's [Error] and nothing else: any other
    exception of [_setup_env] (a failed child process, undecodable or
    ill-shaped locator output, a [TypeError]) leaves [main] as it is.  The
    program then ends with a traceback and status 1, without an [error:]
    line and without an [exec]. *)
Theorem X16_other_exceptions_escape (w : world) (s s1 : state) (e : exn) :
  _setup_env w None true s = (s1, Raise e) →
  is_Error e = false →
  main w s = (s1, Raise e)
  ∧ run_program w s = (mkState (fs s1) (EvTraceback e :: trace s1), Exited 1).
Proof.
  intros H He.
  assert (Hm : main w s = (s1, Raise e)).
  { unfold main. rewrite bind_unfold. unfold try_except. rewrite H, He. reflexivity. }
  split; [exact Hm|]. unfold run_program. rewrite Hm. reflexivity.
Qed.

Lemma X16_witness :
  _setup_env Hosts.locator_fails None true (Demo.boot [Demo.vcvars64])
  = (mkState (Demo.disk [Demo.vcvars64])
       [EvRun (vswhere_cmd Demo.vswhere) (ProcExited 87 "")],
     Raise (CalledProcessError 87 (vswhere_cmd Demo.vswhere)))
  ∧ run_program Hosts.locator_fails (Demo.boot [Demo.vcvars64])
    = (mkState (Demo.disk [Demo.vcvars64])
         [EvTraceback (CalledProcessError 87 (vswhere_cmd Demo.vswhere));
          EvRun (vswhere_cmd Demo.vswhere) (ProcExited 87 "")],
       Exited 1).
Proof.
  assert (H : _setup_env Hosts.locator_fails None true (Demo.boot [Demo.vcvars64])
              = (mkState (Demo.disk [Demo.vcvars64])
                   [EvRun (vswhere_cmd Demo.vswhere) (ProcExited 87 "")],
                 Raise (CalledProcessError 87 (vswhere_cmd Demo.vswhere))))
    by by_evaluation.
  split; [exact H|].
  exact (proj2 (X16_other_exceptions_escape Hosts.locator_fails _ _ _ H eq_refl)).
Defined.

(** ** The order of the child processes *)

Lemma find_installation_trace (w : world) (s s' : state) (r : result string) :
  find_installation w s = (s', r) →
  (s' = s ∧ ∀ p, r ≠ Ret p)
  ∨ ∃ vswhere outcome,
      trace s' = EvRun (vswhere_cmd vswhere) outcome :: trace s
      ∧ ((∃ p, r = Ret p) → ∃ out, outcome = ProcExited 0 out).
Proof.
  intros H.
  destruct (program_files_root w) as [root|] eqn:Hroot.
  - destruct (fs s !! vswhere_under w root) as [content|] eqn:Hex.
    + right.
      exists (vswhere_under w root), (spawn w (vswhere_cmd (vswhere_under w root)) (fs s)).2.
      assert (Ht : trace s' = EvRun (vswhere_cmd (vswhere_under w root))
                                (spawn w (vswhere_cmd (vswhere_under w root)) (fs s)).2
                              :: trace s).
      { apply (find_installation_runs w s s' root r Hroot); [|exact H].
        unfold vswhere_under in Hex. rewrite Hex. eexists; reflexivity. }
      split; [exact Ht|].
      intros [p ->]. apply find_installation_Ret in H as (v & out & ->).
      cbn [trace] in Ht. injection Ht as _ Ho. exists out. symmetry. exact Ho.
    + left. rewrite (find_installation_missing w s root Hroot Hex) in H.
      injection H as <- <-. split; [reflexivity | discriminate].
  - left. unfold find_installation in H. unfold program_files_root in Hroot.
    rewrite Hroot in H. injection H as <- <-. split; [reflexivity | discriminate].
Qed.

(** X17.  Whatever its outcome, a call of [_setup_env] has logged one of
    four things: nothing; one look at the search path (the unforced call);
    one run of the locator; or a run of the locator that exited with
    status 0, then one temporary file, then one run of that file.  So the
    setup script is never started before the locator has succeeded, at most
    two child processes are started, and nothing is printed or executed. *)
Theorem X17_order_of_actions (w : world) (arch : option string) (force : bool)
    (s s' : state) (r : result (gmap string string)) :
  _setup_env w arch force s = (s', r) →
  trace s' = trace s
  ∨ trace s' = EvWhich (PyBuiltin "compile") :: trace s
  ∨ (∃ vswhere outcome, trace s' = EvRun (vswhere_cmd vswhere) outcome :: trace s)
  ∨ (∃ vswhere out tmp outcome,
       trace s' = EvRun [tmp] outcome :: EvTempfile tmp
                    :: EvRun (vswhere_cmd vswhere) (ProcExited 0 out) :: trace s).
Proof.
  intros H.
  destruct (String.eqb_spec (sys_platform w) "win32") as [Hp|Hp]; cycle 1.
  { rewrite setup_env_elsewhere in H by (intros [Hn _]; exact (Hp Hn)).
    injection H as <- _. left. reflexivity. }
  destruct (decide (environ_get w "OSTYPE" = Some "cygwin")) as [Hc|Hc].
  { rewrite setup_env_elsewhere in H by (intros [_ Hn]; exact (Hn Hc)).
    injection H as <- _. left. reflexivity. }
  destruct force; cycle 1.
  { rewrite setup_env_unforced in H by (split; assumption).
    injection H as <- _. right. left. reflexivity. }
  rewrite setup_env_forced in H by (split; assumption). unfold discover in H.
  apply bind_inv in H as [(a & s0 & H0 & H)|(r0 & H0 & _)]; cycle 1.
  { apply stateless_inv in H0 as ->; [|apply stateless_arch]. left. reflexivity. }
  apply stateless_inv in H0 as ->; [|apply stateless_arch].
  apply bind_inv in H as [(ip & s1 & H1 & H)|(r0 & H1 & _)]; cycle 1.
  { apply find_installation_trace in H1 as [[-> _]|(v & o & Ht & _)].
    - left. reflexivity.
    - right. right. left. exists v, o. exact Ht. }
  apply find_installation_trace in H1 as [[_ Hno]|(v & o & Ht1 & Hok)].
  { exfalso. exact (Hno ip eq_refl). }
  destruct (Hok ltac:(eexists; reflexivity)) as (out & ->).
  apply bind_inv in H as [(vcvars & s2 & H2 & H)|(r0 & H2 & _)]; cycle 1.
  { apply stateless_inv in H2 as ->; [|apply stateless_select].
    right. right. left. exists v, (ProcExited 0 out). exact Ht1. }
  apply stateless_inv in H2 as ->; [|apply stateless_select].
  assert (Hend : ∃ r3, run_script w vcvars (uuid4 w) s1 = (s', r3)).
  { apply bind_inv in H as [(o & s3 & H3 & H)|(r0 & H3 & _)].
    - apply stateless_inv in H as ->; [|apply stateless_scan]. eexists. exact H3.
    - eexists. exact H3. }
  destruct Hend as (r3 & H3). apply run_script_tidy in H3 as [(o & Ht3) _].
  right. right. right. exists v, out, (mktemp w (fs s1)), o.
  rewrite Ht3, Ht1. reflexivity.
Qed.

Lemma X17_witness :
  let w := Demo.machine Demo.amd64 Demo.locator_json (ProcExited 1 "") in
  _setup_env w None true (Demo.boot [])
  = (mkState (Demo.disk [])
       [EvRun (vswhere_cmd Demo.vswhere) (ProcExited 0 Demo.locator_json)],
     Raise (Error "Could not find vcvars.bat"))
  ∧ (trace (mkState (Demo.disk [])
              [EvRun (vswhere_cmd Demo.vswhere) (ProcExited 0 Demo.locator_json)])
     = trace (Demo.boot [])
     ∨ trace (mkState (Demo.disk [])
                [EvRun (vswhere_cmd Demo.vswhere) (ProcExited 0 Demo.locator_json)])
       = EvWhich (PyBuiltin "compile") :: trace (Demo.boot [])
     ∨ (∃ vswhere outcome,
          trace (mkState (Demo.disk [])
                   [EvRun (vswhere_cmd Demo.vswhere) (ProcExited 0 Demo.locator_json)])
          = EvRun (vswhere_cmd vswhere) outcome :: trace (Demo.boot []))
     ∨ (∃ vswhere out tmp outcome,
          trace (mkState (Demo.disk [])
                   [EvRun (vswhere_cmd Demo.vswhere) (ProcExited 0 Demo.locator_json)])
          = EvRun [tmp] outcome :: EvTempfile tmp
              :: EvRun (vswhere_cmd vswhere) (ProcExited 0 out) :: trace (Demo.boot []))).
Proof.
  intros w.
  assert (H : _setup_env w None true (Demo.boot [])
              = (mkState (Demo.disk [])
                   [EvRun (vswhere_cmd Demo.vswhere) (ProcExited 0 Demo.locator_json)],
                 Raise (Error "Could not find vcvars.bat")))
    by by_evaluation.
  split; [exact H|].
  exact (X17_order_of_actions w None true _ _ _ H).
Defined.

(** ** The file system *)

Lemma keeps_fs_stateless {A} (m : M A) : stateless m → keeps_fs m.
Proof. intros Hm s s' r H. apply stateless_inv in H as ->; [reflexivity | exact Hm]. Qed.

Lemma keeps_fs_bind {A B} (m : M A) (k : A → M B) :
  keeps_fs m → (∀ a, keeps_fs (k a)) → keeps_fs (m ≫= k).
Proof.
  intros Hm Hk s s' r H.
  apply bind_inv in H as [(a & s1 & H1 & H)|(r0 & H1 & _)].
  - rewrite (Hk a _ _ _ H). exact (Hm _ _ _ H1).
  - exact (Hm _ _ _ H1).
Qed.

Lemma keeps_fs_subprocess_run (w : world) (args : list string) :
  (∀ a f, (spawn w a f).1 = f) → keeps_fs (subprocess_run w args).
Proof.
  intros Hsp s s' r. rewrite subprocess_run_eq. intros [= <- _]. apply Hsp.
Qed.

Lemma keeps_fs_find_installation (w : world) :
  (∀ a f, (spawn w a f).1 = f) → keeps_fs (find_installation w).
Proof.
  intros Hsp. unfold find_installation.
  apply keeps_fs_bind; [apply keeps_fs_stateless, stateless_Path2|]. intros vswhere.
  apply keeps_fs_bind; [apply keeps_fs_stateless, stateless_exists|]. intros ex.
  destruct (negb ex); [apply keeps_fs_stateless, stateless_raise|].
  apply keeps_fs_bind; [apply keeps_fs_subprocess_run, Hsp|]. intros out.
  apply keeps_fs_stateless.
  apply stateless_bind; [apply stateless_json_loads|]. intros info.
  destruct (negb (json_truthy info)); [apply stateless_raise|].
  apply stateless_bind; [apply stateless_index0|]. intros first.
  apply stateless_bind; [apply stateless_getitem|]. intros p.
  apply stateless_Path.
Qed.

Lemma run_script_fs (w : world) (vcvars separator : string) (s s' : state)
    (r : result string) :
  (∀ a f, (spawn w a f).1 = f) →
  fs s !! mktemp w (fs s) = None →
  run_script w vcvars separator s = (s', r) →
  fs s' = fs s.
Proof.
  intros Hsp Hfresh. rewrite run_script_eq. cbn zeta. rewrite Hsp.
  rewrite bool_decide_eq_true_2 by (rewrite lookup_insert_eq; eexists; reflexivity).
  intros [= <- _]. cbn [fs]. apply delete_insert_id, Hfresh.
Qed.

(** X18.  [_setup_env] leaves no mark on the file system of its own: if
    the child processes leave the files as they found them and the name
    picked for the temporary file is not in use, then, whatever the outcome
    of the call, the file system at the end is the one at entry. *)
Theorem X18_file_system_restored (w : world) (arch : option string) (force : bool)
    (s s' : state) (r : result (gmap string string)) :
  (∀ args f, (spawn w args f).1 = f) →
  fs s !! mktemp w (fs s) = None →
  _setup_env w arch force s = (s', r) →
  fs s' = fs s.
Proof.
  intros Hsp Hfresh. unfold _setup_env. cbn zeta.
  destruct (negb _); [intros [= <- _]; reflexivity|].
  destruct (bool_decide _); [intros [= <- _]; reflexivity|].
  destruct force; cbn [negb]; cycle 1.
  { rewrite bind_unfold, compiler_on_path_raises. intros [= <- _]. reflexivity. }
  rewrite bind_unfold. cbn [ret]. unfold discover. intros H.
  apply bind_inv in H as [(a & s0 & H0 & H)|(r0 & H0 & _)]; cycle 1.
  { apply stateless_inv in H0 as ->; [reflexivity | apply stateless_arch]. }
  apply stateless_inv in H0 as ->; [|apply stateless_arch].
  apply bind_inv in H as [(ip & s1 & H1 & H)|(r0 & H1 & _)]; cycle 1.
  { exact (keeps_fs_find_installation w Hsp _ _ _ H1). }
  apply (keeps_fs_find_installation w Hsp) in H1.
  apply bind_inv in H as [(vcvars & s2 & H2 & H)|(r0 & H2 & _)]; cycle 1.
  { apply stateless_inv in H2 as ->; [exact H1 | apply stateless_select]. }
  apply stateless_inv in H2 as ->; [|apply stateless_select].
  rewrite <- H1 in Hfresh.
  apply bind_inv in H as [(out & s3 & H3 & H)|(r0 & H3 & _)].
  - apply stateless_inv in H as ->; [|apply stateless_scan].
    rewrite (run_script_fs _ _ _ _ _ _ Hsp Hfresh H3). exact H1.
  - rewrite (run_script_fs _ _ _ _ _ _ Hsp Hfresh H3). exact H1.
Qed.

Lemma X18_witness :
  fs (Demo.boot [Demo.vcvars64]) !! mktemp Demo.host (fs (Demo.boot [Demo.vcvars64])) = None
  ∧ fs (_setup_env Demo.host None true (Demo.boot [Demo.vcvars64])).1
    = fs (Demo.boot [Demo.vcvars64]).
Proof.
  split; [by_evaluation|].
  refine (X18_file_system_restored Demo.host None true (Demo.boot [Demo.vcvars64])
            _ (_setup_env Demo.host None true (Demo.boot [Demo.vcvars64])).2 _ _ _).
  - intros args f. cbn. case_bool_decide; reflexivity.
  - by_evaluation.
  - destruct (_setup_env Demo.host None true (Demo.boot [Demo.vcvars64])); reflexivity.
Defined.

(** X19.  If the temporary batch file is gone when the run of it ends (the
    script deleted it), the [os.unlink] of the [finally] clause raises
    [OSError], and that is the outcome of the step whatever the script
    printed and however it exited: its output is lost. *)
Theorem X19_vanished_tempfile (w : world) (vcvars separator : string) (s : state) :
  let tmp := mktemp w (fs s) in
  let child := spawn w [tmp] (<[tmp := batch_script vcvars separator]> (fs s)) in
  child.1 !! tmp = None →
  ∃ msg,
    run_script w vcvars separator s
    = (mkState child.1 (EvRun [tmp] child.2 :: EvTempfile tmp :: trace s),
       Raise (OSError msg)).
Proof.
  intros tmp child Hgone. rewrite run_script_eq. cbn zeta. fold tmp. fold child.
  rewrite bool_decide_eq_false_2; [eexists; reflexivity|].
  rewrite Hgone. intros [x Hx]. discriminate Hx.
Qed.

Lemma X19_witness :
  (spawn Hosts.self_deleting [Demo.tmpname]
     (<[Demo.tmpname := batch_script Demo.vcvars64 Demo.separator]>
        (Demo.disk [Demo.vcvars64]))).2
  = ProcExited 0 Demo.script_out
  ∧ ∃ msg,
      run_script Hosts.self_deleting Demo.vcvars64 Demo.separator (Demo.boot [Demo.vcvars64])
      = (mkState (Demo.disk [Demo.vcvars64])
           [EvRun [Demo.tmpname] (ProcExited 0 Demo.script_out); EvTempfile Demo.tmpname],
         Raise (OSError msg)).
Proof.
  split; [reflexivity|].
  destruct (X19_vanished_tempfile Hosts.self_deleting Demo.vcvars64 Demo.separator
              (Demo.boot [Demo.vcvars64])) as (msg & H).
  - by_evaluation.
  - exists msg. rewrite H. by_evaluation.
Defined.

(** ** The program's own errors *)

Lemma detect_raises (w : world) (s s' : state) (e : exn) :
  _windows_detect_native_arch w s = (s', Raise e) →
  e = Error "Unable to detect native OS architecture"
  ∨ IsWow64Process2 w = Wow64Raises e.
Proof.
  unfold _windows_detect_native_arch.
  destruct (negb _); [discriminate|]. intros H.
  apply bind_Raise_inv in H as [H|(q & s1 & _ & H)].
  - right. revert H. unfold query_native_arch, try_except.
    destruct (IsWow64Process2 w) as [e0|ok v]; cbn.
    + destruct (is_OSError_or_AttributeError e0); cbn; [discriminate|].
      intros [= _ <-]. reflexivity.
    + destruct ok; discriminate.
  - destruct q as [a0|]; [discriminate H|]. cbn zeta in H.
    destruct (negb _); [|discriminate H].
    apply bind_Raise_inv in H as [H|(a1 & s2 & _ & H)]; [|discriminate H].
    left. revert H. unfold try_except. rewrite bind_unfold. unfold environ_getitem.
    destruct (environ_get w "PROCESSOR_ARCHITECTURE"); cbn; [discriminate|].
    intros [= _ <-]. reflexivity.
Qed.

Lemma find_installation_Error (w : world) (s s' : state) (msg : string) :
  find_installation w s = (s', Raise (Error msg)) →
  (∃ vswhere, msg = "Could not find " +:+ vswhere)
  ∨ msg = "Could not parse vswhere.exe output".
Proof.
  unfold find_installation. intros H.
  apply bind_Raise_inv in H as [H|(vswhere & s1 & _ & H)].
  { destruct (py_or _ _); discriminate H. }
  apply bind_Raise_inv in H as [H|(ex & s2 & _ & H)]; [discriminate H|].
  destruct (negb ex).
  { injection H as _ <-. left. eexists. reflexivity. }
  apply bind_Raise_inv in H as [H|(out & s3 & _ & H)].
  { rewrite subprocess_run_eq in H.
    destruct (spawn w _ _).2 as [rc o|reason]; [destruct (rc =? 0)%Z|]; discriminate H. }
  apply bind_Raise_inv in H as [H|(info & s4 & _ & H)].
  { unfold json_loads_ in H. destruct (json_loads w out); discriminate H. }
  destruct (negb (json_truthy info)).
  { injection H as _ <-. right. reflexivity. }
  apply bind_Raise_inv in H as [H|(first & s5 & _ & H)].
  { destruct info as [| | | [|]|[|]|]; discriminate H. }
  apply bind_Raise_inv in H as [H|(p & s6 & _ & H)].
  { destruct first; try discriminate H.
    cbn [json_getitem] in H. destruct (obj_lookup _ _); discriminate H. }
  destruct p; discriminate H.
Qed.

Lemma select_vcvars_Error (w : world) (arch : option string) (installation_path : string)
    (s s' : state) (msg : string) :
  select_vcvars w arch installation_path s = (s', Raise (Error msg)) →
  msg = "Could not find vcvars.bat".
Proof.
  unfold select_vcvars. intros H.
  apply bind_Raise_inv in H as [H|(vcvars & s1 & _ & H)].
  - destruct (bool_decide _); cbn zeta in H;
      apply bind_Raise_inv in H as [H|(ex & s1 & _ & H)];
      try discriminate H; destruct (negb ex); discriminate H.
  - apply bind_Raise_inv in H as [H|(ex & s2 & _ & H)]; [discriminate H|].
    destruct (negb ex); [|discriminate H]. injection H as _ <-. reflexivity.
Qed.

Lemma discover_Error (w : world) (arch : option string) (env : gmap string string)
    (s s' : state) (msg : string) :
  discover w arch env s = (s', Raise (Error msg)) →
  target_arch w arch s = (s', Raise (Error msg))
  ∨ (∃ vswhere, msg = "Could not find " +:+ vswhere)
  ∨ msg = "Could not parse vswhere.exe output"
  ∨ msg = "Could not find vcvars.bat".
Proof.
  unfold discover. intros H.
  apply bind_Raise_inv in H as [H|(a & s0 & _ & H)]; [left; exact H|]. right.
  apply bind_Raise_inv in H as [H|(ip & s1 & _ & H)].
  { apply find_installation_Error in H as [H|H]; [left; exact H | right; left; exact H]. }
  apply bind_Raise_inv in H as [H|(vcvars & s2 & _ & H)].
  { right. right. exact (select_vcvars_Error _ _ _ _ _ _ H). }
  apply bind_Raise_inv in H as [H|(out & s3 & _ & H)].
  - apply run_script_no_Error in H. discriminate H.
  - rewrite scan_output_total in H. discriminate H.
Qed.

(** X20.  The program's [Error] leaves [_setup_env] with one of four
    messages only: "Unable to detect native OS architecture", "Could not
    find <path of the locator>", "Could not parse vswhere.exe output",
    "Could not find vcvars.bat" (or it is an [Error] that the API query
    itself raised).  These are therefore the only [error: ...] lines the
    program can print. *)
Theorem X20_domain_errors (w : world) (arch : option string) (force : bool)
    (s s' : state) (msg : string) :
  _setup_env w arch force s = (s', Raise (Error msg)) →
  domain_message msg ∨ IsWow64Process2 w = Wow64Raises (Error msg).
Proof.
  unfold _setup_env. cbn zeta.
  destruct (negb _); [discriminate|]. destruct (bool_decide _); [discriminate|].
  destruct force; cbn [negb].
  2:{ rewrite bind_unfold, compiler_on_path_raises. discriminate. }
  rewrite bind_unfold. cbn [ret]. intros H.
  apply discover_Error in H as [H|[H|[H|H]]].
  - unfold target_arch in H. destruct (opt_truthy arch); [discriminate H|].
    apply detect_raises in H as [[= ->]|H]; [left; left; reflexivity | right; exact H].
  - left. right. left. exact H.
  - left. right. right. left. exact H.
  - left. right. right. right. exact H.
Qed.

Lemma X20_witness :
  _setup_env Demo.host None true (mkState ∅ [])
  = (mkState ∅ [], Raise (Error ("Could not find " +:+ Demo.vswhere)))
  ∧ (domain_message ("Could not find " +:+ Demo.vswhere)
     ∨ IsWow64Process2 Demo.host
       = Wow64Raises (Error ("Could not find " +:+ Demo.vswhere))).
Proof.
  assert (H : _setup_env Demo.host None true (mkState ∅ [])
              = (mkState ∅ [], Raise (Error ("Could not find " +:+ Demo.vswhere))))
    by by_evaluation.
  split; [exact H|].
  exact (X20_domain_errors Demo.host None true _ _ _ H).
Defined.

(** X4.  An [arch] given as a non-empty string is the target architecture:
    the detector is not consulted, so the call does not depend on what the
    API query would give and cannot fail with "Unable to detect native OS
    architecture".  The empty string counts as no architecture: it is
    treated like [None]. *)
Theorem X4_explicit_arch (w : world) (a : string) (force : bool) (s : state) :
  a ≠ "" →
  (∀ q, _setup_env (with_wow64 q w) (Some a) force s = _setup_env w (Some a) force s)
  ∧ (∀ s', _setup_env w (Some a) force s
           ≠ (s', Raise (Error "Unable to detect native OS architecture")))
  ∧ _setup_env w (Some "") force s = _setup_env w None force s.
Proof.
  intros Ha. destruct a as [|c r]; [contradiction|].
  split; [intros q; reflexivity|]. split; [|reflexivity].
  intros s'. unfold _setup_env. cbn zeta.
  destruct (negb _); [discriminate|]. destruct (bool_decide _); [discriminate|].
  destruct force; cbn [negb].
  2:{ rewrite bind_unfold, compiler_on_path_raises. discriminate. }
  rewrite bind_unfold. cbn [ret]. intros H.
  apply discover_Error in H as [H|[(v & H)|[H|H]]]; discriminate H.
Qed.

Lemma X4_witness :
  let failing := with_wow64 (Wow64Raises (TypeError "no ctypes")) Demo.host in
  (_windows_detect_native_arch failing (Demo.boot [Demo.vcvars64])).2
  = Raise (TypeError "no ctypes")
  ∧ (_setup_env failing (Some "x86") true (Demo.boot [Demo.vcvars64])).2 = Ret Demo.merged.
Proof.
  intros failing. split; [reflexivity|]. subst failing.
  rewrite (proj1 (X4_explicit_arch Demo.host "x86" true (Demo.boot [Demo.vcvars64])
                    ltac:(discriminate)) (Wow64Raises (TypeError "no ctypes"))).
  by_evaluation.
Defined.

(** ** The batch file *)

Lemma append_assoc (a b c : string) : (a +:+ b) +:+ c = a +:+ (b +:+ c).
Proof.
  induction a as [|x a IH]; [reflexivity|].
  rewrite !append_cons, IH. reflexivity.
Qed.

Lemma append_nil_r (a : string) : a +:+ "" = a.
Proof.
  induction a as [|x a IH]; [reflexivity|]. rewrite append_cons, IH. reflexivity.
Qed.

Lemma has_linebreak_app (a b : string) :
  has_linebreak (a +:+ b) = has_linebreak a || has_linebreak b.
Proof.
  induction a as [|x a IH]; [reflexivity|].
  rewrite append_cons. cbn [has_linebreak]. rewrite IH, orb_assoc. reflexivity.
Qed.

Lemma batch_script_unlines (vcvars separator : string) :
  batch_script vcvars separator
  = unlines [""; "@ECHO OFF"; "call " +:+ dquote +:+ vcvars +:+ dquote;
             "ECHO " +:+ separator; "SET"].
Proof.
  unfold batch_script, unlines. cbn [foldr].
  rewrite !append_assoc, append_nil_l, append_nil_r. reflexivity.
Qed.

(** X21.  The child process of the extraction step is started with the
    name of the temporary file as its whole command line, on a file system
    where that file holds the batch script.  When neither the path of the
    setup script nor the separator contains a line boundary, the script has
    five lines: an empty one, [@ECHO OFF], [call "<setup script>"],
    [ECHO <separator>] and [SET]. *)
Theorem X21_batch_file (w : world) (vcvars separator : string) (s : state) :
  has_linebreak vcvars = false →
  has_linebreak separator = false →
  let tmp := mktemp w (fs s) in
  let disk := <[tmp := batch_script vcvars separator]> (fs s) in
  trace (run_script w vcvars separator s).1
  = EvRun [tmp] (spawn w [tmp] disk).2 :: EvTempfile tmp :: trace s
  ∧ disk !! tmp = Some (batch_script vcvars separator)
  ∧ Str.splitlines (batch_script vcvars separator)
    = [""; "@ECHO OFF"; "call " +:+ dquote +:+ vcvars +:+ dquote;
       "ECHO " +:+ separator; "SET"].
Proof.
  intros Hv Hs tmp disk. split; [|split].
  - rewrite run_script_eq. cbn zeta. fold tmp. fold disk.
    destruct (bool_decide _); reflexivity.
  - apply lookup_insert_eq.
  - rewrite batch_script_unlines. apply splitlines_unlines.
    repeat constructor; rewrite ?has_linebreak_app, ?Hv, ?Hs; reflexivity.
Qed.

Lemma X21_witness :
  has_linebreak Demo.vcvars64 = false
  ∧ has_linebreak Demo.separator = false
  ∧ Str.splitlines (batch_script Demo.vcvars64 Demo.separator)
    = [""; "@ECHO OFF"; "call " +:+ dquote +:+ Demo.vcvars64 +:+ dquote;
       "ECHO " +:+ Demo.separator; "SET"].
Proof.
  split; [reflexivity|]. split; [reflexivity|].
  exact (proj2 (proj2 (X21_batch_file Demo.host Demo.vcvars64 Demo.separator
                         (Demo.boot [Demo.vcvars64]) eq_refl eq_refl))).
Defined.
